(** * sysid: the analysis manager and its signal conditioning

    A shallow embedding of [AnalysisManager.cpp], of the [AnalysisType]
    registry and of the filtering tests of the repository, with the
    properties the specification states about them.

    C++ [double]s are Rocq's primitive binary64 floats, so every
    definition evaluates as the program does; [std::vector] is [list],
    [std::array<double, S>] a list of columns read with [!!!],
    [wpi::StringMap] a [gmap string], C++ exceptions a result type. *)

From Stdlib Require Import ZArith List Floats Lia.
From stdpp Require Import base option list gmap strings.

Local Open Scope Z_scope.

(* Decimal literals round to the nearest double, as in C++. *)
#[local] Set Warnings "-inexact-float".

(** ** Numbers *)

#[global] Instance float_inhabited : Inhabited float := populate 0%float.

(** [static_cast<size_t>(n)] of an [int] on a 64-bit target. *)
Definition size_t_of_int (n : Z) : Z := n mod 2 ^ 64.

(** A [std::vector] holds fewer than [2 ^ 64] elements. *)
Definition fits_size_t {A} (l : list A) : Prop := Z.of_nat (length l) < 2 ^ 64.

(** [a != b] on doubles: true on NaN, false on [0] against [-0]. *)
Definition fneq (a b : float) : bool := negb (a =? b)%float.

(** ** Exceptions *)

(** [std::runtime_error], the [out_of_range] of [json.at], and the two error
    kinds the specification names for helpers that are not in the sources. *)
Inductive exn :=
| runtime_error (what : string)
| out_of_range (key : string)
| InsufficientData
| ZeroHeadingChange.

Inductive result (A : Type) :=
| Ok (a : A)
| Throw (e : exn).
Arguments Ok {A} a.
Arguments Throw {A} e.

Definition throws {A} (r : result A) : bool :=
  match r with Ok _ => false | Throw _ => true end.

Definition rbind {A B} (r : result A) (k : A -> result B) : result B :=
  match r with Ok a => k a | Throw e => Throw e end.

(** ** Data model *)

(** One raw sample, [std::array<double, S>]: column [c] is [pt !!! c]. *)
Abbreviation Row := (list float).

(** [PreparedData].  [ComputeAcceleration] lists six values (time, voltage,
    position, velocity, acceleration, cos); the filtering tests of the
    repository list seven, with [dt] after the velocity.  The record has the
    seven, and [dt] is zero where the six-value initializer is used. *)
Record PreparedData := mkPreparedData {
  timestamp : float;
  voltage : float;
  position : float;
  velocity : float;
  dt : float;
  acceleration : float;
  cos : float
}.

#[global] Instance PreparedData_inhabited : Inhabited PreparedData :=
  populate (mkPreparedData 0 0 0 0 0 0 0).

(** ** ComputeAcceleration *)

Definition too_small : exn :=
  runtime_error
    "The data collected is too small! This can be caused by too high of a motion threshold or bad data collection.".

Section ComputeAcceleration.
(** The template parameters: the columns of the raw data. *)
Variables Voltage Position Velocity : nat.

(** [(data[i + step][Velocity] - data[i - step][Velocity]) /
     (data[i + step][0] - data[i - step][0])] *)
Definition accel_at (data : list Row) (step i : nat) : float :=
  (((data !!! (i + step)%nat) !!! Velocity - (data !!! (i - step)%nat) !!! Velocity) /
   ((data !!! (i + step)%nat) !!! 0%nat - (data !!! (i - step)%nat) !!! 0%nat))%float.

(** The value pushed for index [i]. *)
Definition prepared_at (data : list Row) (step i : nat) : PreparedData :=
  let pt := data !!! i in
  {| timestamp := pt !!! 0%nat;
     voltage := pt !!! Voltage;
     position := pt !!! Position;
     velocity := pt !!! Velocity;
     dt := 0;
     acceleration := accel_at data step i;
     cos := 0 |}.

(** The [for] loop: [n] iterations from index [i], pushing onto [prepared]. *)
Fixpoint accel_loop (data : list Row) (step i n : nat)
    (prepared : list PreparedData) : list PreparedData :=
  match n with
  | O => prepared
  | S n' =>
      let prepared' :=
        if fneq (accel_at data step i) 0
        then prepared ++ [prepared_at data step i]
        else prepared in
      accel_loop data step (S i) n' prepared'
  end.

Definition ComputeAcceleration (data : list Row) (window : Z)
    : result (list PreparedData) :=
  let step := size_t_of_int (Z.quot window 2) in
  let size := Z.of_nat (length data) in
  if size <=? size_t_of_int window then Throw too_small
  else
    (* i = step; i < data.size() - step; in size_t arithmetic *)
    let bound := (size - step) mod 2 ^ 64 in
    Ok (accel_loop data (Z.to_nat step) (Z.to_nat step)
          (Z.to_nat (bound - step)) []).

(** The loop, as the list of the pushed values. *)
Definition kept_at (data : list Row) (step i : nat) : list PreparedData :=
  if fneq (accel_at data step i) 0 then [prepared_at data step i] else [].
End ComputeAcceleration.

(** ** AnalysisType *)

Record AnalysisType := mkAnalysisType {
  independentVariables : nat;
  rawDataSize : nat;
  name : string
}.

(** [AnalysisType::operator==] *)
Definition AnalysisType_eqb (lhs rhs : AnalysisType) : bool :=
  String.eqb (name lhs) (name rhs) &&
  Nat.eqb (independentVariables lhs) (independentVariables rhs) &&
  Nat.eqb (rawDataSize lhs) (rawDataSize rhs).

Definition kDrivetrain : AnalysisType := mkAnalysisType 3 9 "Drivetrain".
Definition kDrivetrainAngular : AnalysisType := mkAnalysisType 3 9 "Drivetrain (Angular)".
Definition kElevator : AnalysisType := mkAnalysisType 4 4 "Elevator".
Definition kArm : AnalysisType := mkAnalysisType 4 4 "Arm".
Definition kSimple : AnalysisType := mkAnalysisType 3 4 "Simple".

(** ** Small helpers of AnalysisManager.cpp *)

(** [Concatenate(dest, {srcs...})] *)
Definition Concatenate (dest : list PreparedData) (srcs : list (list PreparedData))
    : list PreparedData :=
  fold_left (fun d src => d ++ src) srcs dest.

(** [v.back()]; undefined on an empty vector, the default value here. *)
Definition back {A} `{Inhabited A} (v : list A) : A := default inhabitant (last v).

(** [std::max(a, b)] is [(a < b) ? b : a]. *)
Definition std_max (a b : float) : float := if (a <? b)%float then b else a.

(** [std::copysign(x, y)]: the magnitude of [x] with the sign of [y].
    Rocq's floats have one NaN, which counts as positive here. *)
Definition copysign (x y : float) : float :=
  if get_sign y then (- abs x)%float else abs x.

(** [wpi::math::pi] *)
Definition pi : float := 0x1.921fb54442d18p+1%float.

Definition set_cos (c : float) (pt : PreparedData) : PreparedData :=
  {| timestamp := timestamp pt; voltage := voltage pt; position := position pt;
     velocity := velocity pt; dt := dt pt; acceleration := acceleration pt;
     cos := c |}.


Section CalculateCosine.
(** [std::cos] *)
Variable std_cos : float -> float.

Definition CalculateCosine (data : list PreparedData) (unit : string)
    : list PreparedData :=
  map (fun pt =>
         if String.eqb unit "Radians" then set_cos (std_cos (position pt)) pt
         else if String.eqb unit "Degrees"
              then set_cos (std_cos (position pt * pi / 180)%float) pt
         else if String.eqb unit "Rotations"
              then set_cos (std_cos (position pt * 2 * pi)%float) pt
         else pt)
      data.
End CalculateCosine.

(** [GetMaxTime<S>(data, timeCol)] *)
Definition GetMaxTime (data : gmap string (list Row)) (timeCol : nat) : float :=
  std_max
    (back (data !!! "fast-forward") !!! timeCol -
     ((data !!! "fast-forward") !!! 0%nat) !!! timeCol)%float
    (back (data !!! "fast-backward") !!! timeCol -
     ((data !!! "fast-backward") !!! 0%nat) !!! timeCol)%float.

(** ** Settings *)

Inductive FeedbackControllerLoopType := kPosition | kVelocity.

(** Modelled from the spec: the declaration of the preset is not in the
    sources; section 3 describes it as "feedback controller characterization
    (period, max control effort, encoder delays)". *)
Record FeedbackControllerPreset := mkPreset {
  period : float;
  maxControlEffort : float;
  encoderDelay : float
}.

(** Modelled from the spec: the declaration of the LQR parameters is not in
    the sources; section 3 describes them as the "pair (qPos/qVel, qEff)". *)
Record LQRParameters := mkLQR {
  qState : float;
  qEff : float
}.

(** [AnalysisManager::Settings], with the members AnalysisManager.cpp reads
    or writes. *)
Record Settings := mkSettings {
  motionThreshold : float;
  windowSize : Z;
  stepTestDuration : float;
  preset : FeedbackControllerPreset;
  lqr : LQRParameters;
  convertGainsToEncTicks : bool;
  gearing : float;
  cpr : float;
  dataset : nat;
  type : FeedbackControllerLoopType
}.

Definition set_stepTestDuration (d : float) (s : Settings) : Settings :=
  {| motionThreshold := motionThreshold s; windowSize := windowSize s;
     stepTestDuration := d; preset := preset s; lqr := lqr s;
     convertGainsToEncTicks := convertGainsToEncTicks s; gearing := gearing s;
     cpr := cpr s; dataset := dataset s; type := type s |}.

(** ** FilteringUtils and TrackWidthAnalysis

    Neither file is among the sources: AnalysisManager.cpp calls them and
    the filtering tests exercise them. *)

Module FilteringUtils.

Fixpoint insert_sorted (x : float) (l : list float) : list float :=
  match l with
  | [] => [x]
  | y :: l' => if (x <=? y)%float then x :: l else y :: insert_sorted x l'
  end.

Definition sorted (l : list float) : list float := fold_right insert_sorted [] l.

(** The median of an odd number of values: the middle one in order. *)
Definition median (l : list float) : float := sorted l !!! (length l / 2)%nat.

(** The window of [window] points centered on index [i]. *)
Definition centered {A} (data : list A) (window : Z) (i : nat) : list A :=
  take (Z.to_nat window) (drop (i - Z.to_nat ((window - 1) / 2)) data).

(** Modelled from the spec: ApplyMedianFilter is not in the sources.
    Section 4.A: each interior point's velocity becomes the median of the
    surrounding window, and a sequence shorter than the window fails with
    InsufficientData.  Section 4.A also says that the first and last
    [(window - 1) / 2] points are discarded; the repository's test
    FilterTest.MedianFilter expects ten points from ten points, the two
    end points as they were, so they are kept here.  The routine is
    generic in the point type, as AnalysisManager.cpp applies it to raw
    rows and the test to prepared data. *)
Definition ApplyMedianFilter {A} (get : A -> float) (set : float -> A -> A)
    (data : list A) (window : Z) : result (list A) :=
  let half := Z.to_nat ((window - 1) / 2) in
  if Z.of_nat (length data) <? window then Throw InsufficientData
  else
    Ok (imap (fun i pt =>
                if ((half <=? i)%nat && (i + half <? length data)%nat)%bool
                then set (median (get <$> centered data window i)) pt
                else pt)
             data).

(** Modelled from the spec: TrimQuasistaticData is not in the sources.
    Section 4.A: "erase every point with |velocity| < motionThreshold or
    |voltage| < eps.  Operates in place.  Preserves order of surviving
    points."  The spec does not give [eps]; it is a parameter. *)
Definition quasistatic_erased (eps : float) (Voltage Velocity : nat)
    (motionThreshold : float) (pt : Row) : bool :=
  ((abs (pt !!! Velocity) <? motionThreshold)%float ||
   (abs (pt !!! Voltage) <? eps)%float)%bool.

Definition TrimQuasistaticData (eps : float) (Voltage Velocity : nat)
    (data : list Row) (motionThreshold : float) : list Row :=
  List.filter (fun pt => negb (quasistatic_erased eps Voltage Velocity motionThreshold pt))
              data.

(** *** FilterTest.MedianFilter *)




End FilteringUtils.

Module TrackWidthAnalysis.

(** Modelled from the spec: CalculateTrackWidth is not in the sources.
    Section 4.E: it "returns (|leftDelta| + |rightDelta|) / |headingDelta|.
    Fails with ZeroHeadingChange if |headingDelta| < eps."  The spec does
    not give [eps]; it is a parameter. *)
Definition CalculateTrackWidth (eps l r h : float) : result float :=
  if (abs h <? eps)%float then Throw ZeroHeadingChange
  else Ok ((abs l + abs r) / abs h)%float.

End TrackWidthAnalysis.

(** ** The analysis manager *)

(** [Storage]: the quasistatic and the dynamic sequence of a dataset. *)
Abbreviation Storage := (list PreparedData * list PreparedData)%type.

(** The members of [AnalysisManager]; [m_json] holds the runs of the JSON
    under their keys. *)
Record AnalysisManager := mkManager {
  m_json : gmap string (list Row);
  m_settings : Settings;
  m_type : AnalysisType;
  m_unit : string;
  m_factor : float;
  m_rawDatasets : gmap string Storage;
  m_filteredDatasets : gmap string Storage;
  m_startTimes : list float;
  m_minDuration : float;
  m_maxDuration : float;
  m_trackWidth : option float
}.

Definition set_m_settings (x : Settings) (m : AnalysisManager) : AnalysisManager :=
  mkManager (m_json m) x (m_type m) (m_unit m) (m_factor m) (m_rawDatasets m)
    (m_filteredDatasets m) (m_startTimes m) (m_minDuration m) (m_maxDuration m)
    (m_trackWidth m).

Definition set_m_rawDatasets (x : gmap string Storage) (m : AnalysisManager)
    : AnalysisManager :=
  mkManager (m_json m) (m_settings m) (m_type m) (m_unit m) (m_factor m) x
    (m_filteredDatasets m) (m_startTimes m) (m_minDuration m) (m_maxDuration m)
    (m_trackWidth m).

Definition set_m_filteredDatasets (x : gmap string Storage) (m : AnalysisManager)
    : AnalysisManager :=
  mkManager (m_json m) (m_settings m) (m_type m) (m_unit m) (m_factor m)
    (m_rawDatasets m) x (m_startTimes m) (m_minDuration m) (m_maxDuration m)
    (m_trackWidth m).

Definition set_m_startTimes (x : list float) (m : AnalysisManager) : AnalysisManager :=
  mkManager (m_json m) (m_settings m) (m_type m) (m_unit m) (m_factor m)
    (m_rawDatasets m) (m_filteredDatasets m) x (m_minDuration m) (m_maxDuration m)
    (m_trackWidth m).

Definition set_m_minDuration (x : float) (m : AnalysisManager) : AnalysisManager :=
  mkManager (m_json m) (m_settings m) (m_type m) (m_unit m) (m_factor m)
    (m_rawDatasets m) (m_filteredDatasets m) (m_startTimes m) x (m_maxDuration m)
    (m_trackWidth m).

Definition set_m_maxDuration (x : float) (m : AnalysisManager) : AnalysisManager :=
  mkManager (m_json m) (m_settings m) (m_type m) (m_unit m) (m_factor m)
    (m_rawDatasets m) (m_filteredDatasets m) (m_startTimes m) (m_minDuration m) x
    (m_trackWidth m).

Definition set_m_trackWidth (x : option float) (m : AnalysisManager) : AnalysisManager :=
  mkManager (m_json m) (m_settings m) (m_type m) (m_unit m) (m_factor m)
    (m_rawDatasets m) (m_filteredDatasets m) (m_startTimes m) (m_minDuration m)
    (m_maxDuration m) x.

(** *** Member functions: state and exceptions

    A computation runs on the manager and either returns a value or raises;
    both leave a manager behind, since an exception does not undo the writes
    made before it. *)

Inductive outcome (A : Type) :=
| Return (a : A) (m : AnalysisManager)
| Raise (e : exn) (m : AnalysisManager).
Arguments Return {A} a m.
Arguments Raise {A} e m.

Definition M (A : Type) : Type := AnalysisManager -> outcome A.

Definition ret {A} (a : A) : M A := fun m => Return a m.

Definition bind {A B} (c : M A) (k : A -> M B) : M B :=
  fun m => match c m with
           | Return a m' => k a m'
           | Raise e m' => Raise e m'
           end.

(** A call of a function that does not touch the manager. *)
Definition lift {A} (r : result A) : M A :=
  fun m => match r with Ok a => Return a m | Throw e => Raise e m end.

Definition gets {A} (f : AnalysisManager -> A) : M A := fun m => Return (f m) m.

Definition modify (f : AnalysisManager -> AnalysisManager) : M unit :=
  fun m => Return tt (f m).

(** The manager a computation leaves behind. *)
Definition final {A} (o : outcome A) : AnalysisManager :=
  match o with Return _ m => m | Raise _ m => m end.

Declare Scope manager_scope.
Delimit Scope manager_scope with manager.
Notation "x <- c ;; k" := (bind c (fun x => k))
  (at level 100, c at next level, right associativity) : manager_scope.
Notation "c ;; k" := (bind c (fun _ => k))
  (at level 100, right associativity) : manager_scope.

(** Modelled from the spec: [AnalysisManager::kJsonDataKeys] is declared in a
    header that is not in the sources; section 3 names "the four canonical
    labels" of the test runs. *)
Definition kJsonDataKeys : list string :=
  ["slow-forward"; "slow-backward"; "fast-forward"; "fast-backward"].

(** [for (key : kJsonDataKeys) data[key] = json.at(key).get<std::vector<Data>>()] *)
Definition load_runs (json : gmap string (list Row)) : result (gmap string (list Row)) :=
  fold_left
    (fun data key =>
       rbind data (fun d =>
         match json !! key with
         | Some rows => Ok (<[key := rows]> d)
         | None => Throw (out_of_range key)
         end))
    kJsonDataKeys (Ok ∅).

(** The columns of the raw data, as each Prepare function declares them. *)
Module General.
Definition kTimeCol : nat := 0.
Definition kVoltageCol : nat := 1.
Definition kPosCol : nat := 2.
Definition kVelCol : nat := 3.

(** The body of the sign-and-scale loop. *)
Definition align (factor : float) (pt : Row) : Row :=
  let pt := <[kVoltageCol := copysign (pt !!! kVoltageCol) (pt !!! kVelCol)]> pt in
  let pt := <[kPosCol := (pt !!! kPosCol * factor)%float]> pt in
  <[kVelCol := (pt !!! kVelCol * factor)%float]> pt.
End General.

Module Angular.
Definition kTimeCol : nat := 0.
Definition kVoltageCol : nat := 1.
Definition kLPosCol : nat := 3.
Definition kRPosCol : nat := 4.
Definition kAngleCol : nat := 7.
Definition kAngularRateCol : nat := 8.

Definition align (factor : float) (pt : Row) : Row :=
  let pt := <[kVoltageCol :=
                (2 * copysign (pt !!! kVoltageCol) (pt !!! kAngularRateCol))%float]> pt in
  let pt := <[kLPosCol := (pt !!! kLPosCol * factor)%float]> pt in
  <[kRPosCol := (pt !!! kRPosCol * factor)%float]> pt.
End Angular.

Module Linear.
Definition kTimeCol : nat := 0.
Definition kLVoltageCol : nat := 1.
Definition kRVoltageCol : nat := 2.
Definition kLPosCol : nat := 3.
Definition kRPosCol : nat := 4.
Definition kLVelCol : nat := 5.
Definition kRVelCol : nat := 6.

Definition align (factor : float) (pt : Row) : Row :=
  let pt := <[kLVoltageCol := copysign (pt !!! kLVoltageCol) (pt !!! kLVelCol)]> pt in
  let pt := <[kRVoltageCol := copysign (pt !!! kRVoltageCol) (pt !!! kRVelCol)]> pt in
  let pt := <[kLPosCol := (pt !!! kLPosCol * factor)%float]> pt in
  let pt := <[kRPosCol := (pt !!! kRPosCol * factor)%float]> pt in
  let pt := <[kLVelCol := (pt !!! kLVelCol * factor)%float]> pt in
  <[kRVelCol := (pt !!! kRVelCol * factor)%float]> pt.
End Linear.

(** [startTimes = {sf[0].timestamp, sb[0].timestamp, ff[0].timestamp, fb[0].timestamp}].
    On an empty vector [v[0]] is undefined behaviour in C++; the total lookup
    reads the default point there, which says nothing of what the program
    does.  What is proved of the start times is proved of sequences that are
    not empty. *)
Definition start_times (sf sb ff fb : list PreparedData) : list float :=
  [timestamp (sf !!! 0%nat); timestamp (sb !!! 0%nat);
   timestamp (ff !!! 0%nat); timestamp (fb !!! 0%nat)].

Local Open Scope manager_scope.

Section PrepareData.
(** What FilteringUtils, TrackWidthAnalysis and the C++ library provide.
    The median filter and the step-voltage trim stay arbitrary: what is
    proved of the Prepare functions holds whatever they compute. *)
Variable voltage_eps : float.
Variable heading_eps : float.
Variable std_cos : float -> float.

(** [ApplyMedianFilter<S, Velocity>(data, window)] *)
Variable ApplyMedianFilter : nat -> list Row -> Z -> result (list Row).

(** [TrimStepVoltageData(&run, settings, minStepTime, maxStepTime)]: the
    run, the settings and the minimum step time it leaves.  When it throws,
    the manager is taken as it was before the call. *)
Variable TrimStepVoltageData :
  list PreparedData -> Settings -> float -> float ->
  result (list PreparedData * Settings * float).

Abbreviation TrimQuasistaticData := (FilteringUtils.TrimQuasistaticData voltage_eps).
Abbreviation CalculateTrackWidth := (TrackWidthAnalysis.CalculateTrackWidth heading_eps).

(** A call of [TrimStepVoltageData] with the manager's settings; returns
    the trimmed run and the minimum step time for the caller to store. *)
Definition trim_step (run : list PreparedData) (minStepTime maxStepTime : float)
    : M (list PreparedData * float) :=
  settings <- gets m_settings;;
  r <- lift (TrimStepVoltageData run settings minStepTime maxStepTime);;
  modify (set_m_settings (snd (fst r)));;
  ret (fst (fst r), snd r).

(** [TrimStepVoltageData(&run, settings, minStepTime, maxStepTime)] on the
    manager's [m_minDuration] and [m_maxDuration]. *)
Definition trim_step_min (run : list PreparedData) : M (list PreparedData) :=
  minStepTime <- gets m_minDuration;;
  maxStepTime <- gets m_maxDuration;;
  r <- trim_step run minStepTime maxStepTime;;
  modify (set_m_minDuration (snd r));;
  ret (fst r).

(** [ComputeAcceleration<...>(ApplyMedianFilter<S, Velocity>(data, window), window)] *)
Definition filtered_acceleration (Voltage Position Velocity : nat)
    (data : list Row) (window : Z) : result (list PreparedData) :=
  rbind (ApplyMedianFilter Velocity data window)
        (fun filtered => ComputeAcceleration Voltage Position Velocity filtered window).

(** [TrimQuasistaticData<S, Voltage, Velocity>(&data[key], threshold)]:
    the run under [key] is trimmed in place. *)
Definition trim_run (Voltage Velocity : nat) (key : string) (threshold : float)
    (data : gmap string (list Row)) : gmap string (list Row) :=
  <[key := TrimQuasistaticData Voltage Velocity (data !!! key) threshold]> data.

(** The first part of PrepareGeneralData: the sign-and-scale loop over
    the four runs, then the quasistatic trims. *)
Definition condition_general (settings : Settings) (factor : float)
    (data : gmap string (list Row)) : gmap string (list Row) :=
  let data := map (General.align factor) <$> data in
  let data := trim_run General.kVoltageCol General.kVelCol "slow-forward"
                (motionThreshold settings) data in
  trim_run General.kVoltageCol General.kVelCol "slow-backward"
    (motionThreshold settings) data.

(** The first part of PrepareAngularDrivetrainData. *)
Definition condition_angular (settings : Settings) (factor : float)
    (data : gmap string (list Row)) : gmap string (list Row) :=
  let data := map (Angular.align factor) <$> data in
  let data := trim_run Angular.kVoltageCol Angular.kAngularRateCol "slow-forward"
                (motionThreshold settings) data in
  trim_run Angular.kVoltageCol Angular.kAngularRateCol "slow-backward"
    (motionThreshold settings) data.

(** The first part of PrepareLinearDrivetrainData: the four trims work on
    the two slow runs themselves, the left ones first. *)
Definition condition_linear (settings : Settings) (factor : float)
    (data : gmap string (list Row)) : gmap string (list Row) :=
  let data := map (Linear.align factor) <$> data in
  let data := trim_run Linear.kLVoltageCol Linear.kLVelCol "slow-forward"
                (motionThreshold settings) data in
  let data := trim_run Linear.kLVoltageCol Linear.kLVelCol "slow-backward"
                (motionThreshold settings) data in
  let data := trim_run Linear.kRVoltageCol Linear.kRVelCol "slow-forward"
                (motionThreshold settings) data in
  trim_run Linear.kRVoltageCol Linear.kRVelCol "slow-backward"
    (motionThreshold settings) data.

Definition PrepareGeneralData : M unit :=
  json <- gets m_json;;
  data <- lift (load_runs json);;
  settings <- gets m_settings;;
  factor <- gets m_factor;;
  units <- gets m_unit;;
  let data := condition_general settings factor data in
  let acc := ComputeAcceleration General.kVoltageCol General.kPosCol General.kVelCol in
  let facc := filtered_acceleration General.kVoltageCol General.kPosCol General.kVelCol in
  let window := windowSize settings in
  rawSf <- lift (acc (data !!! "slow-forward") window);;
  rawSb <- lift (acc (data !!! "slow-backward") window);;
  rawFf <- lift (acc (data !!! "fast-forward") window);;
  rawFb <- lift (acc (data !!! "fast-backward") window);;
  sf <- lift (facc (data !!! "slow-forward") window);;
  sb <- lift (facc (data !!! "slow-backward") window);;
  ff <- lift (facc (data !!! "fast-forward") window);;
  fb <- lift (facc (data !!! "fast-backward") window);;
  let sf := CalculateCosine std_cos sf units in
  let sb := CalculateCosine std_cos sb units in
  let ff := CalculateCosine std_cos ff units in
  let fb := CalculateCosine std_cos fb units in
  modify (set_m_maxDuration (GetMaxTime data General.kTimeCol));;
  maxStepTime <- gets m_maxDuration;;
  t <- trim_step rawFf 0 maxStepTime;;
  let rawFf := fst t in let tempTime := snd t in
  t <- trim_step rawFb tempTime maxStepTime;;
  let rawFb := fst t in
  ff <- trim_step_min ff;;
  fb <- trim_step_min fb;;
  raw <- gets m_rawDatasets;;
  modify (set_m_rawDatasets
            (<["Combined" := (Concatenate rawSf [rawSb], Concatenate rawFf [rawFb])]>
               (<["Backward" := (rawSb, rawFb)]> (<["Forward" := (rawSf, rawFf)]> raw))));;
  filtered <- gets m_filteredDatasets;;
  modify (set_m_filteredDatasets
            (<["Combined" := (Concatenate sf [sb], Concatenate ff [fb])]>
               (<["Backward" := (sb, fb)]> (<["Forward" := (sf, ff)]> filtered))));;
  modify (set_m_startTimes (start_times sf sb ff fb)).

Definition PrepareAngularDrivetrainData : M unit :=
  json <- gets m_json;;
  data <- lift (load_runs json);;
  settings <- gets m_settings;;
  factor <- gets m_factor;;
  let data := condition_angular settings factor data in
  let acc :=
    ComputeAcceleration Angular.kVoltageCol Angular.kAngleCol Angular.kAngularRateCol in
  let window := windowSize settings in
  sf <- lift (acc (data !!! "slow-forward") window);;
  sb <- lift (acc (data !!! "slow-backward") window);;
  ff <- lift (acc (data !!! "fast-forward") window);;
  fb <- lift (acc (data !!! "fast-backward") window);;
  modify (set_m_maxDuration (GetMaxTime data Angular.kTimeCol));;
  ff <- trim_step_min ff;;
  (* TrimStepVoltageData(&fb, settings, maxStepTime, maxStepTime) *)
  maxStepTime <- gets m_maxDuration;;
  t <- trim_step fb maxStepTime maxStepTime;;
  let fb := fst t in
  modify (set_m_maxDuration (snd t));;
  let twd := data !!! "slow-forward" in
  let l := (back twd !!! Angular.kLPosCol - (twd !!! 0%nat) !!! Angular.kLPosCol)%float in
  let r := (back twd !!! Angular.kRPosCol - (twd !!! 0%nat) !!! Angular.kRPosCol)%float in
  let a := (back twd !!! Angular.kAngleCol - (twd !!! 0%nat) !!! Angular.kAngleCol)%float in
  tw <- lift (CalculateTrackWidth l r a);;
  modify (set_m_trackWidth (Some tw));;
  filtered <- gets m_filteredDatasets;;
  modify (set_m_filteredDatasets
            (<["Combined" := (Concatenate sf [sb], Concatenate ff [fb])]>
               (<["Backward" := (sb, fb)]> (<["Forward" := (sf, ff)]> filtered))));;
  modify (set_m_startTimes (start_times sf sb ff fb)).

Definition PrepareLinearDrivetrainData : M unit :=
  json <- gets m_json;;
  data <- lift (load_runs json);;
  settings <- gets m_settings;;
  factor <- gets m_factor;;
  let data := condition_linear settings factor data in
  let accL := ComputeAcceleration Linear.kLVoltageCol Linear.kLPosCol Linear.kLVelCol in
  let accR := ComputeAcceleration Linear.kRVoltageCol Linear.kRPosCol Linear.kRVelCol in
  let faccL := filtered_acceleration Linear.kLVoltageCol Linear.kLPosCol Linear.kLVelCol in
  let faccR := filtered_acceleration Linear.kRVoltageCol Linear.kRPosCol Linear.kRVelCol in
  let window := windowSize settings in
  rawSfl <- lift (accL (data !!! "slow-forward") window);;
  rawSbl <- lift (accL (data !!! "slow-backward") window);;
  rawFfl <- lift (accL (data !!! "fast-forward") window);;
  rawFbl <- lift (accL (data !!! "fast-backward") window);;
  rawSfr <- lift (accR (data !!! "slow-forward") window);;
  rawSbr <- lift (accR (data !!! "slow-backward") window);;
  rawFfr <- lift (accR (data !!! "fast-forward") window);;
  rawFbr <- lift (accR (data !!! "fast-backward") window);;
  sfl <- lift (faccL (data !!! "slow-forward") window);;
  sbl <- lift (faccL (data !!! "slow-backward") window);;
  ffl <- lift (faccL (data !!! "fast-forward") window);;
  fbl <- lift (faccL (data !!! "fast-backward") window);;
  sfr <- lift (faccR (data !!! "slow-forward") window);;
  sbr <- lift (faccR (data !!! "slow-backward") window);;
  ffr <- lift (faccR (data !!! "fast-forward") window);;
  fbr <- lift (faccR (data !!! "fast-backward") window);;
  modify (set_m_maxDuration (GetMaxTime data Linear.kTimeCol));;
  maxStepTime <- gets m_maxDuration;;
  t <- trim_step rawFfl 0 maxStepTime;;
  let rawFfl := fst t in let tempTime := snd t in
  t <- trim_step rawFfr tempTime maxStepTime;;
  let rawFfr := fst t in let tempTime := snd t in
  t <- trim_step rawFbl tempTime maxStepTime;;
  let rawFbl := fst t in let tempTime := snd t in
  t <- trim_step rawFbr tempTime maxStepTime;;
  let rawFbr := fst t in
  ffl <- trim_step_min ffl;;
  ffr <- trim_step_min ffr;;
  fbl <- trim_step_min fbl;;
  fbr <- trim_step_min fbr;;
  let raw_sf := Concatenate rawSfl [rawSfr] in
  let raw_sb := Concatenate rawSbl [rawSbr] in
  let raw_ff := Concatenate rawFfl [rawFfr] in
  let raw_fb := Concatenate rawFbl [rawFbr] in
  raw <- gets m_rawDatasets;;
  modify (set_m_rawDatasets
    (<["Right Combined" := (Concatenate rawSfr [rawSbr], Concatenate rawFfr [rawFbr])]>
    (<["Right Backward" := (rawSbr, rawFbr)]>
    (<["Right Forward" := (rawSfr, rawFfr)]>
    (<["Left Combined" := (Concatenate rawSfl [rawSbl], Concatenate rawFfl [rawFbl])]>
    (<["Left Backward" := (rawSbl, rawFbl)]>
    (<["Left Forward" := (rawSfl, rawFfl)]>
    (<["Combined" := (Concatenate raw_sf [raw_sb], Concatenate raw_ff [raw_fb])]>
    (<["Backward" := (raw_sb, raw_fb)]>
    (<["Forward" := (raw_sf, raw_ff)]> raw))))))))));;
  let sf := Concatenate sfl [sfr] in
  let sb := Concatenate sbl [sbr] in
  let ff := Concatenate ffl [ffr] in
  let fb := Concatenate fbl [fbr] in
  filtered <- gets m_filteredDatasets;;
  modify (set_m_filteredDatasets
    (<["Right Combined" := (Concatenate sfr [sbr], Concatenate ffr [fbr])]>
    (<["Right Backward" := (sbr, fbr)]>
    (<["Right Forward" := (sfr, ffr)]>
    (<["Left Combined" := (Concatenate sfl [sbl], Concatenate ffl [fbl])]>
    (<["Left Backward" := (sbl, fbl)]>
    (<["Left Forward" := (sfl, ffl)]>
    (<["Combined" := (Concatenate sf [sb], Concatenate ff [fb])]>
    (<["Backward" := (sb, fb)]>
    (<["Forward" := (sf, ff)]> filtered))))))))));;
  modify (set_m_startTimes (start_times sf sb ff fb)).

(** [AnalysisManager::PrepareData]: the Prepare functions get references
    to the manager's members, so they run on the manager itself. *)
Definition PrepareData : M unit :=
  fun m =>
    if AnalysisType_eqb (m_type m) kDrivetrain then PrepareLinearDrivetrainData m
    else if AnalysisType_eqb (m_type m) kDrivetrainAngular
         then PrepareAngularDrivetrainData m
    else PrepareGeneralData m.
End PrepareData.

(** ** Calculate *)

(** Modelled from the spec: the declaration of [FeedforwardGains] is not in
    the sources.  Section 4.D computes the feedback gains "from (Kv, Ka)";
    the three members are the coefficients of the three-coefficient fit of
    section 4.C, in its order. *)
Record FeedforwardGains := mkFeedforwardGains {
  Ks : float;
  Kv : float;
  Ka : float
}.

(** What CalculateFeedforwardGains returns: the vector of coefficients
    first, which is all that Calculate reads; section 3 lists
    [(β, rmse, r²)]. *)
Abbreviation FeedforwardFit := (list float * float * float)%type.

(** [AnalysisManager::Gains] *)
Abbreviation Gains := (FeedforwardFit * (float * float) * option float)%type.

Section Calculate.
(** FeedforwardAnalysis and FeedbackAnalysis are not in the sources, nor
    is the array [kDatasets] of dataset names. *)
Variable CalculateFeedforwardGains : Storage -> AnalysisType -> result FeedforwardFit.
Variable CalculatePositionFeedbackGains :
  FeedbackControllerPreset -> LQRParameters -> FeedforwardGains -> float ->
  result (float * float).
Variable CalculateVelocityFeedbackGains :
  FeedbackControllerPreset -> LQRParameters -> FeedforwardGains -> float ->
  result (float * float).
Variable kDatasets : list string.

(** [FeedforwardGains gains = {f[0], f[1], f[2]}] *)
Definition feedback_input (f : list float) : FeedforwardGains :=
  {| Ks := f !!! 0%nat; Kv := f !!! 1%nat; Ka := f !!! 2%nat |}.

(** [m_settings.convertGainsToEncTicks ? gearing * cpr * m_factor : 1] *)
Definition encoder_factor (settings : Settings) (factor : float) : float :=
  if convertGainsToEncTicks settings
  then (gearing settings * cpr settings * factor)%float
  else 1%float.

(** [m[key]] on a StringMap: a missing key is first added with an empty
    value. *)
Definition touch (key : string) (datasets : gmap string Storage) : gmap string Storage :=
  match datasets !! key with
  | Some _ => datasets
  | None => <[key := ([], [])]> datasets
  end.

Definition Calculate : M Gains :=
  settings <- gets m_settings;;
  let key := kDatasets !!! dataset settings in
  filtered <- gets m_filteredDatasets;;
  modify (set_m_filteredDatasets (touch key filtered));;
  filtered <- gets m_filteredDatasets;;
  type_ <- gets m_type;;
  ff <- lift (CalculateFeedforwardGains (filtered !!! key) type_);;
  let f := fst (fst ff) in
  let gains := feedback_input f in
  factor <- gets m_factor;;
  fb <- lift (match type settings with
              | kPosition =>
                  CalculatePositionFeedbackGains (preset settings) (lqr settings)
                    gains (encoder_factor settings factor)
              | kVelocity =>
                  CalculateVelocityFeedbackGains (preset settings) (lqr settings)
                    gains (encoder_factor settings factor)
              end);;
  tw <- gets m_trackWidth;;
  ret (ff, fb, tw).
End Calculate.

(** ** Predicates of the properties *)

(** What a computation leaves untouched, whether it returns or raises. *)
Definition keeps {A B} (f : AnalysisManager -> B) (c : M A) : Prop :=
  forall m, f (final (c m)) = f m.

(** [stored] is what a call of TrimStepVoltageData with the maximum step
    time [maxStepTime] leaves of the points [computed]; the settings and the
    minimum step time of the call are those that the calls before it have
    left. *)
Definition step_trimmed
    (TrimStepVoltageData :
       list PreparedData -> Settings -> float -> float ->
       result (list PreparedData * Settings * float))
    (maxStepTime : float) (computed : result (list PreparedData))
    (stored : list PreparedData) : Prop :=
  exists run settings minStepTime settings' minStepTime',
    computed = Ok run /\
    TrimStepVoltageData run settings minStepTime maxStepTime
    = Ok (stored, settings', minStepTime').

(** Every point of a run has [cos = 0]. *)
Definition cos_is_zero (run : list PreparedData) : Prop :=
  Forall (fun pt => cos pt = 0%float) run.

(** One dataset is two others end to end: the quasistatic sequences and
    the dynamic sequences are concatenated, and the lengths add. *)
Definition combines (forward backward combined : Storage) : Prop :=
  fst combined = fst forward ++ fst backward /\
  snd combined = snd forward ++ snd backward /\
  length (fst combined) = (length (fst forward) + length (fst backward))%nat /\
  length (snd combined) = (length (snd forward) + length (snd backward))%nat.

(** The three datasets of a family ("", "Left " or "Right ") are in the map,
    and the Combined one is the Forward one then the Backward one. *)
Definition family_combines (datasets : gmap string Storage) (side : string) : Prop :=
  exists forward backward combined,
    datasets !! (side +:+ "Forward") = Some forward /\
    datasets !! (side +:+ "Backward") = Some backward /\
    datasets !! (side +:+ "Combined") = Some combined /\
    combines forward backward combined.

(** ** Concrete runs

    Instances of what the sources leave open, and small experiments, on
    which the definitions above are evaluated. *)

Module Demo.

(** The median filter on raw rows. *)
Definition median_rows (Velocity : nat) (data : list Row) (window : Z)
    : result (list Row) :=
  FilteringUtils.ApplyMedianFilter
    (fun pt : Row => pt !!! Velocity) (fun v (pt : Row) => <[Velocity := v]> pt)
    data window.

(** A step trim that erases nothing and leaves the settings as they are. *)
Definition keep_step (run : list PreparedData) (settings : Settings)
    (minStepTime maxStepTime : float)
    : result (list PreparedData * Settings * float) :=
  Ok (run, settings, minStepTime).

(** The runs below are in linear units, on which the cosine is not taken. *)
Definition no_cos (x : float) : float := x.

Definition eps : float := 0x1p-20%float.

Definition settings : Settings :=
  {| motionThreshold := 0.2; windowSize := 3; stepTestDuration := 0;
     preset := mkPreset 0.02 12 0; lqr := mkLQR 1 7;
     convertGainsToEncTicks := false; gearing := 1; cpr := 1;
     dataset := 0; type := kPosition |}.

Definition manager (t : AnalysisType) (units : string)
    (json : gmap string (list Row)) : AnalysisManager :=
  {| m_json := json; m_settings := settings; m_type := t; m_unit := units;
     m_factor := 1; m_rawDatasets := ∅; m_filteredDatasets := ∅;
     m_startTimes := [0; 0; 0; 0]%float; m_minDuration := 100000;
     m_maxDuration := 0; m_trackWidth := None |}.

Definition prepare : M unit :=
  PrepareData eps eps no_cos median_rows keep_step.

(** *** A general mechanism: rows [t, V, p, v] *)

(** A ramp of six samples, and a run at constant velocity. *)
Definition ramp : list Row :=
  [[0; 1; 0; 0.5]; [1; 2; 1; 1.1]; [2; 3; 2; 1.8]; [3; 4; 4; 2.6];
   [4; 5; 7; 3.5]; [5; 6; 10; 4.5]]%float.

Definition still : list Row :=
  [[0; 1; 0; 2]; [1; 1; 2; 2]; [2; 1; 4; 2]; [3; 1; 6; 2]; [4; 1; 8; 2]]%float.

Definition general_json : gmap string (list Row) :=
  list_to_map
    [("slow-forward", ramp);
     ("slow-backward",
      [[0; -1; 0; -0.5]; [1; -2; -1; -1.1]; [2; -3; -2; -1.8]; [3; -4; -4; -2.6];
       [4; -5; -7; -3.5]; [5; -6; -10; -4.5]]%float);
     ("fast-forward",
      [[0; 6; 0; 0]; [1; 6; 1; 2]; [2; 6; 4; 3.5]; [3; 6; 8; 4.5];
       [4; 6; 13; 5]; [5; 6; 18; 5.25]]%float);
     ("fast-backward",
      [[0; -6; 0; 0]; [1; -6; -1; -2]; [2; -6; -4; -3.5]; [3; -6; -8; -4.5];
       [4; -6; -13; -5]; [5; -6; -18; -5.25]]%float)].

Definition elevator : AnalysisManager := manager kElevator "Meters" general_json.

(** *** A linear drivetrain: rows [t, Vl, Vr, pl, pr, vl, vr, θ, θ'].
    At [t = 2] of the slow forward run the left wheel is below the motion
    threshold and the right wheel is not. *)

Definition linear_json : gmap string (list Row) :=
  list_to_map
    [("slow-forward",
      [[0; 1; 1; 0; 0; 0.5; 0.5; 0; 0]; [1; 2; 2; 1; 1; 1; 1.1; 0; 0];
       [2; 3; 3; 2; 2; 0.01; 1.8; 0; 0]; [3; 4; 4; 4; 4; 2; 2.6; 0; 0];
       [4; 5; 5; 7; 7; 2.6; 3.5; 0; 0]; [5; 6; 6; 10; 10; 3.5; 4.5; 0; 0]]%float);
     ("slow-backward",
      [[0; -1; -1; 0; 0; -0.5; -0.5; 0; 0]; [1; -2; -2; -1; -1; -1; -1.1; 0; 0];
       [2; -3; -3; -2; -2; -1.6; -1.8; 0; 0]; [3; -4; -4; -4; -4; -2; -2.6; 0; 0];
       [4; -5; -5; -7; -7; -2.6; -3.5; 0; 0]; [5; -6; -6; -10; -10; -3.5; -4.5; 0; 0]]%float);
     ("fast-forward",
      [[0; 6; 6; 0; 0; 0; 0; 0; 0]; [1; 6; 6; 1; 1; 2; 2; 0; 0];
       [2; 6; 6; 4; 4; 3.5; 3.5; 0; 0]; [3; 6; 6; 8; 8; 4.5; 4.5; 0; 0];
       [4; 6; 6; 13; 13; 5; 5; 0; 0]; [5; 6; 6; 18; 18; 5.25; 5.25; 0; 0]]%float);
     ("fast-backward",
      [[0; -6; -6; 0; 0; 0; 0; 0; 0]; [1; -6; -6; -1; -1; -2; -2; 0; 0];
       [2; -6; -6; -4; -4; -3.5; -3.5; 0; 0]; [3; -6; -6; -8; -8; -4.5; -4.5; 0; 0];
       [4; -6; -6; -13; -13; -5; -5; 0; 0]; [5; -6; -6; -18; -18; -5.25; -5.25; 0; 0]]%float)].

Definition drivetrain : AnalysisManager := manager kDrivetrain "Meters" linear_json.

(** The sample of the slow forward run at [t = 2]. *)
Definition slow_sample : Row := [2; 3; 3; 2; 2; 0.01; 1.8; 0; 0]%float.

(** The right side on its own: the right trim only, then the acceleration. *)
Definition right_alone : result (list PreparedData) :=
  ComputeAcceleration Linear.kRVoltageCol Linear.kRPosCol Linear.kRVelCol
    (FilteringUtils.TrimQuasistaticData eps Linear.kRVoltageCol Linear.kRVelCol
       (map (Linear.align 1) (linear_json !!! "slow-forward")) 0.2)
    3.

(** *** An angular drivetrain: the wheels turn one unit each way while the
    heading changes by one radian. *)

Definition angular_json : gmap string (list Row) :=
  list_to_map
    [("slow-forward",
      [[0; 1; 1; 0; 0; 0; 0; 0; 0.5]; [1; 2; 2; 0.2; -0.2; 0; 0; 0.2; 1.1];
       [2; 3; 3; 0.4; -0.4; 0; 0; 0.4; 1.8]; [3; 4; 4; 0.6; -0.6; 0; 0; 0.6; 2.6];
       [4; 5; 5; 0.8; -0.8; 0; 0; 0.8; 3.5]; [5; 6; 6; 1; -1; 0; 0; 1; 4.5]]%float);
     ("slow-backward",
      [[0; 1; 1; 0; 0; 0; 0; 0; -0.5]; [1; 2; 2; -0.2; 0.2; 0; 0; -0.2; -1.1];
       [2; 3; 3; -0.4; 0.4; 0; 0; -0.4; -1.8]; [3; 4; 4; -0.6; 0.6; 0; 0; -0.6; -2.6];
       [4; 5; 5; -0.8; 0.8; 0; 0; -0.8; -3.5]; [5; 6; 6; -1; 1; 0; 0; -1; -4.5]]%float);
     ("fast-forward",
      [[0; 6; 6; 0; 0; 0; 0; 0; 0]; [1; 6; 6; 1; -1; 0; 0; 1; 2];
       [2; 6; 6; 4; -4; 0; 0; 4; 3.5]; [3; 6; 6; 8; -8; 0; 0; 8; 4.5];
       [4; 6; 6; 13; -13; 0; 0; 13; 5]; [5; 6; 6; 18; -18; 0; 0; 18; 5.25]]%float);
     ("fast-backward",
      [[0; 6; 6; 0; 0; 0; 0; 0; 0]; [1; 6; 6; -1; 1; 0; 0; -1; -2];
       [2; 6; 6; -4; 4; 0; 0; -4; -3.5]; [3; 6; 6; -8; 8; 0; 0; -8; -4.5];
       [4; 6; 6; -13; 13; 0; 0; -13; -5]; [5; 6; 6; -18; 18; 0; 0; -18; -5.25]]%float)].

Definition angular : AnalysisManager :=
  manager kDrivetrainAngular "Radians" angular_json.

(** *** Calculate on an elevator *)

(** A fit that returns the four coefficients [1, 2, 3, 4]. *)
Definition fit (data : Storage) (t : AnalysisType) : result FeedforwardFit :=
  Ok ([1; 2; 3; 4]%float, 0%float, 1%float).

(** A feedback computation that returns the [Kv] and [Ka] it is given. *)
Definition echo (p : FeedbackControllerPreset) (l : LQRParameters)
    (gains : FeedforwardGains) (factor : float) : result (float * float) :=
  Ok (Kv gains, Ka gains).

Definition calculate : M Gains :=
  Calculate fit echo echo ["Combined"; "Forward"; "Backward"].

(** The managers that PrepareData leaves. *)
Definition elevator_prepared : AnalysisManager :=
  Eval vm_compute in final (prepare elevator).

Definition drivetrain_prepared : AnalysisManager :=
  Eval vm_compute in final (prepare drivetrain).

Definition angular_prepared : AnalysisManager :=
  Eval vm_compute in final (prepare angular).

End Demo.

(** ** More of the sources *)

(** [AnalysisType::operator!=] *)
Definition AnalysisType_neqb (lhs rhs : AnalysisType) : bool :=
  negb (AnalysisType_eqb lhs rhs).

(** The registry of AnalysisType.h. *)
Definition registry : list AnalysisType :=
  [kDrivetrain; kDrivetrainAngular; kElevator; kArm; kSimple].

Definition set_m_unit (x : string) (m : AnalysisManager) : AnalysisManager :=
  mkManager (m_json m) (m_settings m) (m_type m) x (m_factor m) (m_rawDatasets m)
    (m_filteredDatasets m) (m_startTimes m) (m_minDuration m) (m_maxDuration m)
    (m_trackWidth m).

Definition set_m_factor (x : float) (m : AnalysisManager) : AnalysisManager :=
  mkManager (m_json m) (m_settings m) (m_type m) (m_unit m) x (m_rawDatasets m)
    (m_filteredDatasets m) (m_startTimes m) (m_minDuration m) (m_maxDuration m)
    (m_trackWidth m).

Section OverrideUnits.
Variable voltage_eps : float.
Variable heading_eps : float.
Variable std_cos : float -> float.
Variable ApplyMedianFilter : nat -> list Row -> Z -> result (list Row).
Variable TrimStepVoltageData :
  list PreparedData -> Settings -> float -> float ->
  result (list PreparedData * Settings * float).

(** [AnalysisManager::OverrideUnits] *)
Definition OverrideUnits (units : string) (unitsPerRotation : float) : M unit :=
  modify (set_m_unit units);;
  modify (set_m_factor unitsPerRotation);;
  PrepareData voltage_eps heading_eps std_cos ApplyMedianFilter TrimStepVoltageData.
End OverrideUnits.

(** What a computation leaves untouched when it raises. *)
Definition raises_keep {A B} (f : AnalysisManager -> B) (c : M A) : Prop :=
  forall m e m', c m = Raise e m' -> f m' = f m.

Definition never_raises {A} (c : M A) : Prop :=
  forall m e m', c m <> Raise e m'.

(** The dataset keys that the Prepare functions write. *)
Definition general_keys : list string := ["Forward"; "Backward"; "Combined"].

Definition linear_keys : list string :=
  ["Forward"; "Backward"; "Combined";
   "Left Forward"; "Left Backward"; "Left Combined";
   "Right Forward"; "Right Backward"; "Right Combined"].

(** The point that ComputeAcceleration makes of a row when the stencil has
    no width: the acceleration is [0 / 0]. *)
Definition degenerate_point (Voltage Position Velocity : nat) (row : Row) : PreparedData :=
  mkPreparedData (row !!! 0%nat) (row !!! Voltage) (row !!! Position)
    (row !!! Velocity) 0 nan 0.

(** What PrepareData reads and what it writes when it returns. *)
Definition inputs (m : AnalysisManager) :=
  (m_json m, m_type m, m_unit m, m_factor m).

Definition outputs (m : AnalysisManager) :=
  (m_rawDatasets m, m_filteredDatasets m, m_startTimes m, m_trackWidth m).

(** The runs after the first part of the Prepare function that PrepareData
    selects for a type. *)
Definition conditioned (voltage_eps : float) (t : AnalysisType) (settings : Settings)
    (factor : float) (runs : gmap string (list Row)) : gmap string (list Row) :=
  if AnalysisType_eqb t kDrivetrain
  then condition_linear voltage_eps settings factor runs
  else if AnalysisType_eqb t kDrivetrainAngular
       then condition_angular voltage_eps settings factor runs
  else condition_general voltage_eps settings factor runs.

(** ** SysIdGeneralMechanismLogger *)

Module SysIdGeneralMechanismLogger.

(** The members that SysIdGeneralMechanismLogger.cpp reads or writes;
    [m_primaryMotorVoltage] is a [units::volt_t]. *)
Record Logger := mkLogger {
  m_timestamp : float;
  m_motorVoltage : float;
  m_primaryMotorVoltage : float;
  m_data : list float
}.

Definition set_m_data (x : list float) (l : Logger) : Logger :=
  mkLogger (m_timestamp l) (m_motorVoltage l) (m_primaryMotorVoltage l) x.

Definition set_m_primaryMotorVoltage (x : float) (l : Logger) : Logger :=
  mkLogger (m_timestamp l) (m_motorVoltage l) x (m_data l).

Section Logger.
(** The base class SysIdLogger is not in the sources: its constant
    [kDataVectorSize], its [UpdateData], which reads the robot's clock and
    commands (the environment [Env]), and its [Reset]. *)
Variable kDataVectorSize : nat.
Variable Env : Type.
Variable UpdateData : Env -> Logger -> Logger.
Variable SysIdLogger_Reset : Logger -> Logger.

Definition GetMotorVoltage (l : Logger) : float := m_primaryMotorVoltage l.

Definition Log (env : Env) (measuredPosition measuredVelocity : float) (l : Logger)
    : Logger :=
  let l := UpdateData env l in
  let l :=
    if (length (m_data l) <? kDataVectorSize)%nat
    then set_m_data
           (m_data l ++
            [m_timestamp l; m_primaryMotorVoltage l; measuredPosition; measuredVelocity])
           l
    else l in
  set_m_primaryMotorVoltage (m_motorVoltage l) l.

Definition Reset (l : Logger) : Logger :=
  set_m_primaryMotorVoltage 0 (SysIdLogger_Reset l).

(** A series of calls of [Log], one per robot period. *)
Definition Logs (calls : list (Env * float * float)) (l : Logger) : Logger :=
  fold_left (fun l call => Log (fst (fst call)) (snd (fst call)) (snd call) l) calls l.
End Logger.

End SysIdGeneralMechanismLogger.

(** ** Further concrete cases *)

Module Cases.

(** An elevator log without its fast backward run. *)
Definition incomplete : AnalysisManager :=
  Demo.manager kElevator "Meters" (delete "fast-backward" Demo.general_json).

(** An elevator log whose slow forward run has three samples, the size of
    the window. *)
Definition short : AnalysisManager :=
  Demo.manager kElevator "Meters"
    (<["slow-forward" := take 3 Demo.ramp]> Demo.general_json).

(** The runs that PrepareData reads from it. *)
Definition short_runs : gmap string (list Row) :=
  Eval vm_compute in
    match load_runs (m_json short) with Ok data => data | Throw _ => ∅ end.

(** A logger with room for six values, on a robot whose clock and commanded
    voltage are given call by call. *)
Definition kDataVectorSize : nat := 6.

Definition Env : Type := float * float.

Definition UpdateData (env : Env) (l : SysIdGeneralMechanismLogger.Logger)
    : SysIdGeneralMechanismLogger.Logger :=
  SysIdGeneralMechanismLogger.mkLogger (fst env) (snd env)
    (SysIdGeneralMechanismLogger.m_primaryMotorVoltage l)
    (SysIdGeneralMechanismLogger.m_data l).

(** A base-class reset that empties the data vector. *)
Definition SysIdLogger_Reset (l : SysIdGeneralMechanismLogger.Logger)
    : SysIdGeneralMechanismLogger.Logger :=
  SysIdGeneralMechanismLogger.mkLogger 0 0
    (SysIdGeneralMechanismLogger.m_primaryMotorVoltage l) [].

Definition logger : SysIdGeneralMechanismLogger.Logger :=
  SysIdGeneralMechanismLogger.mkLogger 0 0 0 [].

Definition Log := SysIdGeneralMechanismLogger.Log kDataVectorSize Env UpdateData.

Definition Logs := SysIdGeneralMechanismLogger.Logs kDataVectorSize Env UpdateData.

Definition calls : list (Env * float * float) :=
  [((0, 1), 0, 0); ((1, 2), 1, 1); ((2, 3), 2, 1)]%float.

(** The logger after one call. *)
Definition once : SysIdGeneralMechanismLogger.Logger :=
  Log (0, 1)%float 0%float 0%float logger.

End Cases.

(** * Properties *)

(** ** ComputeAcceleration *)

Section ComputeAccelerationFacts.
Variables Voltage Position Velocity : nat.

Lemma flat_map_nil {A B} (f : A -> list B) (l : list A) :
  (forall x, In x l -> f x = []) -> flat_map f l = [].
Proof.
  induction l as [|x l IH]; intros Hf; simpl; [done|].
  rewrite Hf by (by left). apply IH. intros y Hy. apply Hf. by right.
Qed.

Lemma accel_loop_spec data step n : forall i prepared,
  accel_loop Voltage Position Velocity data step i n prepared =
  prepared ++ flat_map (kept_at Voltage Position Velocity data step) (seq i n).
Proof.
  induction n as [|n IH]; intros i prepared; simpl.
  - by rewrite app_nil_r.
  - rewrite IH. unfold kept_at.
    destruct (fneq (accel_at Velocity data step i) 0); simpl; [|done].
    by rewrite <- app_assoc.
Qed.

Lemma ComputeAcceleration_Ok data window :
  0 <= window < 2 ^ 31 -> fits_size_t data ->
  window < Z.of_nat (length data) ->
  ComputeAcceleration Voltage Position Velocity data window =
  Ok (flat_map (kept_at Voltage Position Velocity data (Z.to_nat (window / 2)))
        (seq (Z.to_nat (window / 2))
             (length data - Z.to_nat (window / 2) - Z.to_nat (window / 2)))).
Proof.
  intros Hw Hn Hlt. unfold fits_size_t in Hn.
  unfold ComputeAcceleration, size_t_of_int.
  rewrite Z.quot_div_nonneg by lia.
  assert (Hs : 0 <= window / 2 <= window).
  { split; [apply Z.div_pos; lia|]. apply Z.div_le_upper_bound; lia. }
  rewrite (Z.mod_small window) by lia.
  rewrite (Z.mod_small (window / 2)) by lia.
  rewrite (Z.mod_small (_ - _)) by lia.
  destruct (Z.leb_spec (Z.of_nat (length data)) window) as [?|_]; [lia|].
  rewrite accel_loop_spec. simpl. do 3 f_equal. lia.
Qed.

Lemma ComputeAcceleration_Throw data window :
  0 <= window < 2 ^ 31 ->
  Z.of_nat (length data) <= window ->
  ComputeAcceleration Voltage Position Velocity data window = Throw too_small.
Proof.
  intros Hw Hle. unfold ComputeAcceleration, size_t_of_int.
  rewrite (Z.mod_small window) by lia.
  by destruct (Z.leb_spec (Z.of_nat (length data)) window) as [_|?]; [|lia].
Qed.

Lemma ComputeAcceleration_cos data window run :
  ComputeAcceleration Voltage Position Velocity data window = Ok run ->
  cos_is_zero run.
Proof.
  unfold ComputeAcceleration. case_match; [done|]. intros [= <-].
  rewrite accel_loop_spec. simpl. apply Forall_forall. intros p Hp.
  apply list_elem_of_In, in_flat_map in Hp as (i & _ & Hp). unfold kept_at in Hp.
  destruct (fneq _ _); simpl in Hp; [|done]. by destruct Hp as [<-|[]].
Qed.

(** C6: on a run of [N] samples the output is, in order, one point for
    every index [s <= i < N - s], [s = window / 2], whose acceleration
    [(v[i+s] - v[i-s]) / (t[i+s] - t[i-s])] is not 0; it carries that
    acceleration and the time, voltage, position and velocity of sample [i].
    Indices below [s] or from [N - s] on, and indices whose acceleration
    equals 0, give no point. *)
Theorem ComputeAcceleration_points (data : list Row) (window : Z)
    (prepared : list PreparedData) :
  0 <= window < 2 ^ 31 -> fits_size_t data ->
  ComputeAcceleration Voltage Position Velocity data window = Ok prepared ->
  let s := Z.to_nat (window / 2) in
  let N := length data in
  let a (i : nat) : float :=
    (((data !!! (i + s)%nat) !!! Velocity - (data !!! (i - s)%nat) !!! Velocity) /
     ((data !!! (i + s)%nat) !!! 0%nat - (data !!! (i - s)%nat) !!! 0%nat))%float in
  let point (i : nat) : PreparedData :=
    mkPreparedData ((data !!! i) !!! 0%nat) ((data !!! i) !!! Voltage)
      ((data !!! i) !!! Position) ((data !!! i) !!! Velocity) 0 (a i) 0 in
  prepared =
    flat_map (fun i => if (a i =? 0)%float then [] else [point i]) (seq s (N - s - s)) /\
  (forall p, p ∈ prepared <->
     exists i, (s <= i < N - s)%nat /\ (a i =? 0)%float = false /\ p = point i).
Proof.
  intros Hw Hn Hok s N a point.
  assert (Hlt : window < Z.of_nat (length data)).
  { destruct (Z.lt_ge_cases window (Z.of_nat (length data))) as [?|Hge]; [done|].
    rewrite ComputeAcceleration_Throw in Hok by lia. discriminate. }
  rewrite ComputeAcceleration_Ok in Hok by done. injection Hok as <-.
  assert (Heq : forall i, kept_at Voltage Position Velocity data s i =
                          if (a i =? 0)%float then [] else [point i]).
  { intros i. unfold kept_at, fneq. fold (a i).
    change (accel_at Velocity data s i) with (a i).
    by destruct (a i =? 0)%float. }
  split.
  - apply flat_map_ext. intros i. apply Heq.
  - intros p. rewrite list_elem_of_In, in_flat_map. split.
    + intros (i & Hi & Hp). apply in_seq in Hi. exists i. rewrite Heq in Hp.
      destruct (a i =? 0)%float; simpl in Hp; [done|].
      destruct Hp as [<-|[]]. fold s. repeat split; try done; lia.
    + intros (i & Hi & Ha & ->). exists i. split.
      * apply in_seq. fold s. lia.
      * rewrite Heq, Ha. by left.
Qed.

(** C10: the insufficient-data error is raised exactly when the run has at
    most [window] samples, the run of exactly [window] samples included; a
    longer run returns, with no point at all when every acceleration in
    range equals 0. *)
Theorem ComputeAcceleration_throws_iff (data : list Row) (window : Z) :
  0 <= window < 2 ^ 31 -> fits_size_t data ->
  (ComputeAcceleration Voltage Position Velocity data window = Throw too_small <->
   Z.of_nat (length data) <= window) /\
  (throws (ComputeAcceleration Voltage Position Velocity data window) = true <->
   Z.of_nat (length data) <= window) /\
  (Z.of_nat (length data) = window ->
   ComputeAcceleration Voltage Position Velocity data window = Throw too_small) /\
  (window < Z.of_nat (length data) ->
   (forall i, (Z.to_nat (window / 2) <= i < length data - Z.to_nat (window / 2))%nat ->
      (accel_at Velocity data (Z.to_nat (window / 2)) i =? 0)%float = true) ->
   ComputeAcceleration Voltage Position Velocity data window = Ok []).
Proof.
  intros Hw Hn.
  destruct (Z.lt_ge_cases window (Z.of_nat (length data))) as [Hlt|Hge].
  - rewrite ComputeAcceleration_Ok by done. simpl.
    repeat split; try (intros; first [discriminate | lia]).
    intros _ Hzero. f_equal. apply flat_map_nil. intros i Hi.
    apply in_seq in Hi. unfold kept_at, fneq. rewrite Hzero by lia. done.
  - rewrite ComputeAcceleration_Throw by lia. simpl.
    repeat split; try done; intros; lia.
Qed.
End ComputeAccelerationFacts.

(** The ramp with a window of three samples: the four interior points. *)
Lemma ComputeAcceleration_points_witness :
  0 <= 3 < 2 ^ 31 /\ fits_size_t Demo.ramp /\
  exists prepared,
    ComputeAcceleration 1 2 3 Demo.ramp 3 = Ok prepared /\
    forall p, p ∈ prepared <->
      exists i, (1 <= i < 6 - 1)%nat /\
        (accel_at 3 Demo.ramp 1 i =? 0)%float = false /\
        p = prepared_at 1 2 3 Demo.ramp 1 i.
Proof.
  assert (H1 : 0 <= 3 < 2 ^ 31) by lia.
  assert (H2 : fits_size_t Demo.ramp) by (unfold fits_size_t; simpl; lia).
  split; [exact H1|]. split; [exact H2|].
  eexists. split; [vm_compute; reflexivity|].
  refine (proj2 (ComputeAcceleration_points 1 2 3 Demo.ramp 3 _ H1 H2 _)).
  vm_compute. reflexivity.
Defined.

(** Three samples with a window of three are rejected; five samples at
    constant velocity pass and give no point. *)
Lemma ComputeAcceleration_throws_iff_witness :
  0 <= 3 < 2 ^ 31 /\ fits_size_t (take 3 Demo.ramp) /\
  ComputeAcceleration 1 2 3 (take 3 Demo.ramp) 3 = Throw too_small.
Proof.
  assert (H1 : 0 <= 3 < 2 ^ 31) by lia.
  assert (H2 : fits_size_t (take 3 Demo.ramp)) by (unfold fits_size_t; simpl; lia).
  split; [exact H1|]. split; [exact H2|].
  apply (ComputeAcceleration_throws_iff 1 2 3 (take 3 Demo.ramp) 3 H1 H2).
  reflexivity.
Defined.

Example ComputeAcceleration_still : ComputeAcceleration 1 2 3 Demo.still 3 = Ok [].
Proof. vm_compute. reflexivity. Qed.

Example ComputeAcceleration_ramp :
  exists prepared,
    ComputeAcceleration 1 2 3 Demo.ramp 3 = Ok prepared /\
    map timestamp prepared = [1; 2; 3; 4]%float /\
    map acceleration prepared =
    [(1.8 - 0.5) / (2 - 0); (2.6 - 1.1) / (3 - 1); (3.5 - 1.8) / (4 - 2);
     (4.5 - 2.6) / (5 - 3)]%float.
Proof. eexists. split; [vm_compute; reflexivity|]. split; reflexivity. Qed.

(** ** CalculateCosine *)

Lemma CalculateCosine_id std_cos (units : string) (data : list PreparedData) :
  units <> "Radians" -> units <> "Degrees" -> units <> "Rotations" ->
  CalculateCosine std_cos data units = data.
Proof.
  intros H1 H2 H3. unfold CalculateCosine.
  apply String.eqb_neq in H1, H2, H3. rewrite H1, H2, H3.
  induction data as [|pt data IH]; simpl; [done|]. by rewrite IH.
Qed.

(** ** Doubles *)

Lemma abs_opp (x : float) : abs (- x) = abs x.
Proof. apply Prim2SF_inj. rewrite !abs_spec, opp_spec. by destruct (Prim2SF x). Qed.

Lemma SFcompare_antisym (a b : spec_float) :
  SFcompare b a = match SFcompare a b with Some c => Some (CompOpp c) | None => None end.
Proof.
  destruct a as [sa|sa| |sa ma ea], b as [sb|sb| |sb mb eb]; simpl;
    try (by destruct sa); try (by destruct sb); try (by destruct sa, sb); try done.
  f_equal.
  pose proof (Z.compare_antisym ea eb) as He. rewrite He.
  pose proof (Pos.compare_antisym ma mb) as Hm. unfold Pos.compare in Hm. rewrite Hm.
  destruct sa, sb, (ea ?= eb), (PosDef.Pos.compare_cont Eq ma mb); done.
Qed.

(** [a <= b] excludes [b < a]. *)
Lemma leb_not_ltb (a b : float) : (a <=? b)%float = true -> (b <? a)%float = false.
Proof.
  rewrite FloatAxioms.leb_spec, FloatAxioms.ltb_spec. unfold SFleb, SFltb.
  rewrite (SFcompare_antisym (Prim2SF a) (Prim2SF b)).
  by destruct (SFcompare (Prim2SF a) (Prim2SF b)) as [[]|].
Qed.

(** ** The track width *)

(** C7: when the heading change is at least [eps] in magnitude the track
    width is [(|l| + |r|) / |h|]; negating the three arguments leaves the
    result as it is; a heading change below [eps] in magnitude fails with
    ZeroHeadingChange. *)
Theorem CalculateTrackWidth_spec (eps l r h : float) :
  ((eps <=? abs h)%float = true ->
   TrackWidthAnalysis.CalculateTrackWidth eps l r h = Ok ((abs l + abs r) / abs h)%float /\
   TrackWidthAnalysis.CalculateTrackWidth eps (- l) (- r) (- h) =
   TrackWidthAnalysis.CalculateTrackWidth eps l r h) /\
  ((abs h <? eps)%float = true ->
   TrackWidthAnalysis.CalculateTrackWidth eps l r h = Throw ZeroHeadingChange).
Proof.
  unfold TrackWidthAnalysis.CalculateTrackWidth. split.
  - intros Hge. rewrite !abs_opp. by rewrite (leb_not_ltb _ _ Hge).
  - by intros ->.
Qed.

(** The scenario of section 8: wheel deltas [1] and [-1] over one radian. *)
Lemma CalculateTrackWidth_spec_witness :
  (Demo.eps <=? abs 1)%float = true /\
  TrackWidthAnalysis.CalculateTrackWidth Demo.eps 1 (-1) 1 = Ok ((abs 1 + abs (-1)) / abs 1)%float /\
  TrackWidthAnalysis.CalculateTrackWidth Demo.eps (- 1) (- -1) (- 1) =
  TrackWidthAnalysis.CalculateTrackWidth Demo.eps 1 (-1) 1.
Proof.
  assert (H : (Demo.eps <=? abs 1)%float = true) by reflexivity.
  split; [exact H|].
  exact (proj1 (CalculateTrackWidth_spec Demo.eps 1 (-1) 1) H).
Defined.

Example CalculateTrackWidth_scenario :
  TrackWidthAnalysis.CalculateTrackWidth Demo.eps 1 (-1) 1 = Ok 2%float.
Proof. reflexivity. Qed.

Example CalculateTrackWidth_zero_heading :
  TrackWidthAnalysis.CalculateTrackWidth Demo.eps 1 (-1) 0 = Throw ZeroHeadingChange.
Proof. reflexivity. Qed.

(** ** The median filter *)

Lemma take_drop_seq {A} `{Inhabited A} (l : list A) (n : nat) : forall k,
  (k + n <= length l)%nat -> take n (drop k l) = map (fun j => l !!! j) (seq k n).
Proof.
  induction n as [|n IH]; intros k Hk; simpl; [by rewrite take_0|].
  destruct (lookup_lt_is_Some_2 l k) as [x Hx]; [lia|].
  rewrite (drop_S l x k Hx). simpl.
  rewrite (list_lookup_total_correct l k x Hx). f_equal. apply IH. lia.
Qed.






(** ** Computations on the manager *)

Lemma bind_Return {A B} (c : M A) (k : A -> M B) m b m2 :
  bind c k m = Return b m2 ->
  exists a m1, c m = Return a m1 /\ k a m1 = Return b m2.
Proof. unfold bind. destruct (c m) as [a m1|e m1]; [|done]. intros H. by exists a, m1. Qed.

Lemma lift_Return {A} (r : result A) m a m1 :
  lift r m = Return a m1 -> r = Ok a /\ m1 = m.
Proof. unfold lift. destruct r; [|done]. by intros [= -> ->]. Qed.

Lemma gets_Return {A} (f : AnalysisManager -> A) m a m1 :
  gets f m = Return a m1 -> a = f m /\ m1 = m.
Proof. by intros [= <- <-]. Qed.

Lemma modify_Return f m a m1 : modify f m = Return a m1 -> m1 = f m.
Proof. by intros [= <-]. Qed.

Lemma ret_Return {A} (x : A) m a m1 : ret x m = Return a m1 -> a = x /\ m1 = m.
Proof. by intros [= <- <-]. Qed.

Lemma rbind_Ok {A B} (r : result A) (k : A -> result B) b :
  rbind r k = Ok b -> exists a, r = Ok a /\ k a = Ok b.
Proof. destruct r as [a|]; [|done]. intros H. by exists a. Qed.

(** Takes a returning computation apart, step by step. *)
Ltac invert_run H :=
  lazymatch type of H with
  | bind _ _ _ = Return _ _ =>
      let a := fresh "a" in
      let m1 := fresh "m" in
      let H1 := fresh "Hrun" in
      let H2 := fresh "Hrun" in
      apply bind_Return in H as (a & m1 & H1 & H2);
      cbv beta zeta in H1, H2;
      invert_run H1; invert_run H2
  | lift _ _ = Return _ _ =>
      let Hr := fresh "Hcall" in
      apply lift_Return in H as [Hr ->]
  | gets _ _ = Return _ _ => apply gets_Return in H as [-> ->]
  | modify _ _ = Return _ _ => apply modify_Return in H as ->
  | ret _ _ = Return _ _ => apply ret_Return in H as [-> ->]
  | _ => idtac
  end.

Lemma keeps_bind {A B C} (f : AnalysisManager -> C) (c : M A) (k : A -> M B) :
  keeps f c -> (forall a, keeps f (k a)) -> keeps f (bind c k).
Proof.
  intros Hc Hk m. unfold bind. specialize (Hc m).
  destruct (c m) as [a m1|e m1]; simpl in *; [|done]. by rewrite Hk.
Qed.

Lemma keeps_lift {A C} (f : AnalysisManager -> C) (r : result A) : keeps f (lift r).
Proof. intros m. unfold lift. by destruct r. Qed.

Lemma keeps_gets {A C} (f : AnalysisManager -> C) (g : AnalysisManager -> A) :
  keeps f (gets g).
Proof. by intros m. Qed.

Lemma keeps_ret {A C} (f : AnalysisManager -> C) (x : A) : keeps f (ret x).
Proof. by intros m. Qed.

Lemma keeps_modify {C} (f : AnalysisManager -> C) g :
  (forall m, f (g m) = f m) -> keeps f (modify g).
Proof. intros Hg m. apply Hg. Qed.

Ltac keeps_steps :=
  repeat (cbv beta zeta;
          first
            [ apply keeps_lift | apply keeps_gets | apply keeps_ret
            | apply keeps_modify; intros ?; reflexivity
            | apply keeps_bind; [|intros ?] ]).

Lemma Concatenate_one (dest src : list PreparedData) :
  Concatenate dest [src] = dest ++ src.
Proof. reflexivity. Qed.

(** ** Combined datasets *)

Lemma combines_app (sf sb ff fb : list PreparedData) :
  combines (sf, ff) (sb, fb) (Concatenate sf [sb], Concatenate ff [fb]).
Proof. unfold combines. rewrite !Concatenate_one. simpl. by rewrite !length_app. Qed.

Lemma family_combines_insert (datasets : gmap string Storage) (side : string)
    (sf sb ff fb : list PreparedData) :
  family_combines
    (<[side +:+ "Combined" := (Concatenate sf [sb], Concatenate ff [fb])]>
       (<[side +:+ "Backward" := (sb, fb)]>
          (<[side +:+ "Forward" := (sf, ff)]> datasets)))
    side.
Proof.
  assert (Hne : forall a b : string, a <> b -> side +:+ a <> side +:+ b).
  { intros a b Hab Heq. apply Hab. by apply (inj (String.append side)) in Heq. }
  exists (sf, ff), (sb, fb), (Concatenate sf [sb], Concatenate ff [fb]).
  split; [|split; [|split]].
  - rewrite !lookup_insert_ne by (by apply Hne). apply lookup_insert_eq.
  - rewrite lookup_insert_ne by (by apply Hne). apply lookup_insert_eq.
  - apply lookup_insert_eq.
  - apply combines_app.
Qed.

Lemma family_combines_insert_other (datasets : gmap string Storage)
    (side key : string) (x : Storage) :
  key <> side +:+ "Forward" -> key <> side +:+ "Backward" ->
  key <> side +:+ "Combined" ->
  family_combines datasets side -> family_combines (<[key := x]> datasets) side.
Proof.
  intros H1 H2 H3 (f & b & c & Hf & Hb & Hc & Hcomb). exists f, b, c.
  by rewrite !lookup_insert_ne.
Qed.

Section PrepareDataFacts.
Variable voltage_eps : float.
Variable heading_eps : float.
Variable std_cos : float -> float.
Variable ApplyMedianFilter : nat -> list Row -> Z -> result (list Row).
Variable TrimStepVoltageData :
  list PreparedData -> Settings -> float -> float ->
  result (list PreparedData * Settings * float).

Lemma PrepareGeneralData_combines m m' :
  PrepareGeneralData voltage_eps std_cos ApplyMedianFilter TrimStepVoltageData m
  = Return tt m' ->
  family_combines (m_rawDatasets m') "" /\ family_combines (m_filteredDatasets m') "".
Proof.
  intros H. unfold PrepareGeneralData, trim_step_min, trim_step in H.
  invert_run H. simpl. split; apply (family_combines_insert _ "").
Qed.

Lemma PrepareAngularDrivetrainData_combines m m' :
  PrepareAngularDrivetrainData voltage_eps heading_eps TrimStepVoltageData m
  = Return tt m' ->
  family_combines (m_filteredDatasets m') "".
Proof.
  intros H. unfold PrepareAngularDrivetrainData, trim_step_min, trim_step in H.
  invert_run H. simpl. apply (family_combines_insert _ "").
Qed.

Lemma PrepareLinearDrivetrainData_combines m m' :
  PrepareLinearDrivetrainData voltage_eps ApplyMedianFilter TrimStepVoltageData m
  = Return tt m' ->
  (family_combines (m_rawDatasets m') "" /\
   family_combines (m_rawDatasets m') "Left " /\
   family_combines (m_rawDatasets m') "Right ") /\
  (family_combines (m_filteredDatasets m') "" /\
   family_combines (m_filteredDatasets m') "Left " /\
   family_combines (m_filteredDatasets m') "Right ").
Proof.
  intros H. unfold PrepareLinearDrivetrainData, trim_step_min, trim_step in H.
  invert_run H. simpl.
  repeat split;
    repeat (apply family_combines_insert_other; [cbn; discriminate ..|]);
    first [ apply (family_combines_insert _ "")
          | apply (family_combines_insert _ "Left ")
          | apply (family_combines_insert _ "Right ") ].
Qed.

(** C5: once PrepareData has returned, whatever the mechanism type, the
    filtered Combined dataset is the Forward one followed by the Backward
    one, quasistatic and dynamic sequence alike, and the lengths add; so is
    the raw one wherever raw datasets are prepared (every type but the
    angular drivetrain), and so are the Left and the Right families of the
    linear drivetrain. *)
Theorem Combined_is_Forward_then_Backward m m' :
  PrepareData voltage_eps heading_eps std_cos ApplyMedianFilter TrimStepVoltageData m
  = Return tt m' ->
  family_combines (m_filteredDatasets m') "" /\
  (AnalysisType_eqb (m_type m) kDrivetrain = true \/
   AnalysisType_eqb (m_type m) kDrivetrainAngular = false ->
   family_combines (m_rawDatasets m') "") /\
  (AnalysisType_eqb (m_type m) kDrivetrain = true ->
   family_combines (m_rawDatasets m') "Left " /\
   family_combines (m_rawDatasets m') "Right " /\
   family_combines (m_filteredDatasets m') "Left " /\
   family_combines (m_filteredDatasets m') "Right ").
Proof.
  unfold PrepareData. intros H.
  destruct (AnalysisType_eqb (m_type m) kDrivetrain) eqn:Hlin.
  - apply PrepareLinearDrivetrainData_combines in H as ((?&?&?)&(?&?&?)).
    by repeat split.
  - destruct (AnalysisType_eqb (m_type m) kDrivetrainAngular) eqn:Hang.
    + apply PrepareAngularDrivetrainData_combines in H.
      split; [done|]. split; [by intros [?|?]|done].
    + apply PrepareGeneralData_combines in H as [? ?]. by repeat split.
Qed.

(** ** The angular drivetrain and the raw datasets *)

Lemma angular_is_not_linear (t : AnalysisType) :
  AnalysisType_eqb t kDrivetrainAngular = true -> AnalysisType_eqb t kDrivetrain = false.
Proof.
  unfold AnalysisType_eqb. intros H.
  apply andb_prop in H as [H _]. apply andb_prop in H as [H _].
  apply String.eqb_eq in H. by rewrite H.
Qed.

Lemma PrepareAngularDrivetrainData_keeps_raw :
  keeps m_rawDatasets
    (PrepareAngularDrivetrainData voltage_eps heading_eps TrimStepVoltageData).
Proof. unfold PrepareAngularDrivetrainData, trim_step_min, trim_step. keeps_steps. Qed.

Lemma PrepareAngularDrivetrainData_filtered m m' :
  PrepareAngularDrivetrainData voltage_eps heading_eps TrimStepVoltageData m
  = Return tt m' ->
  exists forward backward combined,
    m_filteredDatasets m' =
    <["Combined" := combined]>
      (<["Backward" := backward]> (<["Forward" := forward]> (m_filteredDatasets m))).
Proof.
  intros H. unfold PrepareAngularDrivetrainData, trim_step_min, trim_step in H.
  invert_run H. simpl. by eexists _, _, _.
Qed.

(** C8: for the angular drivetrain, PrepareData leaves the raw datasets as
    they were, whether it returns or raises; when it returns, the filtered
    datasets have gained the keys Forward, Backward and Combined and are
    otherwise as before.  On a manager whose maps were empty, the raw map is
    still empty and the filtered map holds these three keys only. *)
Theorem PrepareData_angular_leaves_raw m :
  AnalysisType_eqb (m_type m) kDrivetrainAngular = true ->
  m_rawDatasets
    (final (PrepareData voltage_eps heading_eps std_cos ApplyMedianFilter
              TrimStepVoltageData m)) = m_rawDatasets m /\
  forall m',
    PrepareData voltage_eps heading_eps std_cos ApplyMedianFilter
      TrimStepVoltageData m = Return tt m' ->
    m_rawDatasets m' = m_rawDatasets m /\
    dom (m_filteredDatasets m') =
      ({["Forward"; "Backward"; "Combined"]} : gset string) ∪ dom (m_filteredDatasets m) /\
    (forall key, key <> "Forward" -> key <> "Backward" -> key <> "Combined" ->
       m_filteredDatasets m' !! key = m_filteredDatasets m !! key) /\
    (m_rawDatasets m = ∅ -> m_filteredDatasets m = ∅ ->
     m_rawDatasets m' = ∅ /\
     dom (m_filteredDatasets m') = ({["Forward"; "Backward"; "Combined"]} : gset string)).
Proof.
  intros Hang. unfold PrepareData.
  rewrite (angular_is_not_linear _ Hang), Hang.
  assert (Hraw := PrepareAngularDrivetrainData_keeps_raw m).
  split; [exact Hraw|]. intros m' Hrun. rewrite Hrun in Hraw. simpl in Hraw.
  apply PrepareAngularDrivetrainData_filtered in Hrun as (f & b & c & Hfil).
  assert (Hdom : dom (m_filteredDatasets m') =
                 ({["Forward"; "Backward"; "Combined"]} : gset string)
                 ∪ dom (m_filteredDatasets m)).
  { rewrite Hfil, !dom_insert_L. apply set_eq. intros key.
    rewrite !elem_of_union, !elem_of_singleton. tauto. }
  split; [exact Hraw|]. split; [exact Hdom|]. split.
  - intros key H1 H2 H3. rewrite Hfil. by rewrite !lookup_insert_ne.
  - intros Hr Hf. split; [by rewrite Hraw|].
    rewrite Hdom, Hf, dom_empty_L. apply union_empty_r_L.
Qed.

(** ** The cosine of the prepared points *)

Lemma filtered_acceleration_cos Voltage Position Velocity rows window run :
  filtered_acceleration ApplyMedianFilter Voltage Position Velocity rows window = Ok run ->
  cos_is_zero run.
Proof.
  unfold filtered_acceleration. intros H. apply rbind_Ok in H as (filtered & _ & H).
  by eapply ComputeAcceleration_cos.
Qed.

Lemma cos_is_zero_app (a b : list PreparedData) :
  cos_is_zero a -> cos_is_zero b -> cos_is_zero (Concatenate a [b]).
Proof. intros Ha Hb. rewrite Concatenate_one. by apply Forall_app. Qed.

Lemma insert3_lookup (datasets : gmap string Storage) (f b c sto : Storage)
    (key : string) (P : Storage -> Prop) :
  key = "Forward" \/ key = "Backward" \/ key = "Combined" ->
  <["Combined" := c]> (<["Backward" := b]> (<["Forward" := f]> datasets)) !! key
  = Some sto ->
  P f -> P b -> P c -> P sto.
Proof.
  intros [-> | [-> | ->]] Hkey Hf Hb Hc.
  - rewrite !lookup_insert_ne in Hkey by done. rewrite lookup_insert_eq in Hkey.
    by injection Hkey as <-.
  - rewrite lookup_insert_ne in Hkey by done. rewrite lookup_insert_eq in Hkey.
    by injection Hkey as <-.
  - rewrite lookup_insert_eq in Hkey. by injection Hkey as <-.
Qed.

(** C9: for a unit other than Radians, Degrees and Rotations, CalculateCosine
    returns its argument as it is, so the points of ComputeAcceleration keep
    the [cos = 0] they are built with; and every point of the Forward,
    Backward and Combined datasets that PrepareGeneralData stores, raw or
    filtered, has [cos = 0], as long as the step-voltage trim keeps points
    of the run it is given. *)
Theorem CalculateCosine_other_units (units : string) :
  units <> "Radians" -> units <> "Degrees" -> units <> "Rotations" ->
  (forall data : list PreparedData, CalculateCosine std_cos data units = data) /\
  (forall Voltage Position Velocity (rows : list Row) (window : Z) run,
     ComputeAcceleration Voltage Position Velocity rows window = Ok run ->
     cos_is_zero (CalculateCosine std_cos run units)) /\
  ((forall run settings minTime maxTime run' settings' minTime',
      TrimStepVoltageData run settings minTime maxTime = Ok (run', settings', minTime') ->
      run' ⊆ run) ->
   forall m m',
     m_unit m = units ->
     PrepareGeneralData voltage_eps std_cos ApplyMedianFilter TrimStepVoltageData m
     = Return tt m' ->
     forall key sto,
       key = "Forward" \/ key = "Backward" \/ key = "Combined" ->
       m_rawDatasets m' !! key = Some sto \/ m_filteredDatasets m' !! key = Some sto ->
       cos_is_zero (fst sto) /\ cos_is_zero (snd sto)).
Proof.
  intros H1 H2 H3. split; [|split].
  - intros data. by apply CalculateCosine_id.
  - intros V P Vel rows window run Hrun. rewrite CalculateCosine_id by done.
    by eapply ComputeAcceleration_cos.
  - intros Htrim m m' Hunit H key sto Hkey Hsto.
    assert (Hkeep : forall run settings minTime maxTime r,
              TrimStepVoltageData run settings minTime maxTime = Ok r ->
              cos_is_zero run -> cos_is_zero (fst (fst r))).
    { intros run settings minTime maxTime [[run' settings'] minTime'] Hr Hrun.
      simpl. unfold cos_is_zero in *. rewrite Forall_forall in *.
      intros pt Hpt. apply Hrun. by eapply Htrim. }
    unfold PrepareGeneralData, trim_step_min, trim_step in H.
    invert_run H. subst units. simpl in Hsto.
    repeat match goal with
           | Hc : context [CalculateCosine _ _ _] |- _ =>
               rewrite CalculateCosine_id in Hc by done
           end.
    repeat match goal with
           | Hc : ComputeAcceleration _ _ _ _ _ = Ok _ |- _ =>
               apply ComputeAcceleration_cos in Hc
           | Hc : filtered_acceleration _ _ _ _ _ _ = Ok _ |- _ =>
               apply filtered_acceleration_cos in Hc
           end.
    repeat match goal with
           | Hc : TrimStepVoltageData _ _ _ _ = Ok _ |- _ =>
               apply Hkeep in Hc; [|assumption]
           end.
    destruct Hsto as [Hsto | Hsto];
      (eapply (insert3_lookup _ _ _ _ _ _
                 (fun sto => cos_is_zero (fst sto) /\ cos_is_zero (snd sto)) Hkey Hsto);
       simpl; split; try assumption; apply Forall_app; split; assumption).
Qed.

(** ** The linear drivetrain and the quasistatic trim *)

Lemma filter_filter {A} (f g : A -> bool) (l : list A) :
  List.filter f (List.filter g l) = List.filter (fun x => g x && f x) l.
Proof.
  induction l as [|x l IH]; simpl; [done|].
  destruct (g x); simpl; [|done]. destruct (f x); by rewrite IH.
Qed.

Lemma lookup_total_fmap_rows (f : list Row -> list Row) (runs : gmap string (list Row))
    (key : string) :
  f [] = [] -> (f <$> runs) !!! key = f (runs !!! key).
Proof.
  intros Hf. rewrite !lookup_total_alt, lookup_fmap.
  by destruct (runs !! key).
Qed.

Lemma condition_linear_slow settings factor runs key :
  key = "slow-forward" \/ key = "slow-backward" ->
  condition_linear voltage_eps settings factor runs !!! key =
  List.filter
    (fun pt =>
       negb (FilteringUtils.quasistatic_erased voltage_eps Linear.kLVoltageCol
               Linear.kLVelCol (motionThreshold settings) pt) &&
       negb (FilteringUtils.quasistatic_erased voltage_eps Linear.kRVoltageCol
               Linear.kRVelCol (motionThreshold settings) pt))
    (map (Linear.align factor) (runs !!! key)).
Proof.
  unfold condition_linear, trim_run, FilteringUtils.TrimQuasistaticData.
  intros [-> | ->].
  - rewrite lookup_total_insert_ne by done. rewrite lookup_total_insert_eq.
    rewrite lookup_total_insert_ne by done. rewrite lookup_total_insert_eq.
    rewrite filter_filter. by rewrite lookup_total_fmap_rows.
  - rewrite lookup_total_insert_eq.
    rewrite lookup_total_insert_ne by done. rewrite lookup_total_insert_eq.
    rewrite lookup_total_insert_ne by done.
    rewrite filter_filter. by rewrite lookup_total_fmap_rows.
Qed.

Lemma condition_linear_fast settings factor runs key :
  key = "fast-forward" \/ key = "fast-backward" ->
  condition_linear voltage_eps settings factor runs !!! key =
  map (Linear.align factor) (runs !!! key).
Proof.
  unfold condition_linear, trim_run.
  intros [-> | ->]; rewrite !lookup_total_insert_ne by done;
    by rewrite lookup_total_fmap_rows.
Qed.

(** C4, amended: in the linear drivetrain pipeline the sign alignment and
    the scaling write each side's columns from that side's columns, and each
    side's acceleration, raw and median-filtered, is computed on that side's
    columns, for the slow runs and for the fast runs, whose points then go
    through the step-voltage trim; the quasistatic trim, however, is made
    for both sides on the one slow run, so each side's datasets come from the
    samples that pass the left and the right test. *)
Theorem linear_slow_runs_are_trimmed_for_both_sides m m' :
  PrepareLinearDrivetrainData voltage_eps ApplyMedianFilter TrimStepVoltageData m
  = Return tt m' ->
  exists runs,
    load_runs (m_json m) = Ok runs /\
    let settings := m_settings m in
    let factor := m_factor m in
    let window := windowSize settings in
    let data := condition_linear voltage_eps settings factor runs in
    let passes Voltage Velocity pt :=
      negb (FilteringUtils.quasistatic_erased voltage_eps Voltage Velocity
              (motionThreshold settings) pt) in
    (forall t Vl Vr pl pr vl vr a w,
       Linear.align factor [t; Vl; Vr; pl; pr; vl; vr; a; w] =
       [t; copysign Vl vl; copysign Vr vr; (pl * factor)%float; (pr * factor)%float;
        (vl * factor)%float; (vr * factor)%float; a; w]) /\
    (forall key, key = "slow-forward" \/ key = "slow-backward" ->
       data !!! key =
       List.filter
         (fun pt => passes Linear.kLVoltageCol Linear.kLVelCol pt &&
                    passes Linear.kRVoltageCol Linear.kRVelCol pt)
         (map (Linear.align factor) (runs !!! key))) /\
    (forall key, key = "fast-forward" \/ key = "fast-backward" ->
       data !!! key = map (Linear.align factor) (runs !!! key)) /\
    (forall key side, key = "slow-forward" /\ side = "Forward" \/
                      key = "slow-backward" /\ side = "Backward" ->
       ComputeAcceleration Linear.kLVoltageCol Linear.kLPosCol Linear.kLVelCol
         (data !!! key) window
       = Ok (fst (m_rawDatasets m' !!! ("Left " +:+ side))) /\
       ComputeAcceleration Linear.kRVoltageCol Linear.kRPosCol Linear.kRVelCol
         (data !!! key) window
       = Ok (fst (m_rawDatasets m' !!! ("Right " +:+ side))) /\
       filtered_acceleration ApplyMedianFilter
         Linear.kLVoltageCol Linear.kLPosCol Linear.kLVelCol (data !!! key) window
       = Ok (fst (m_filteredDatasets m' !!! ("Left " +:+ side))) /\
       filtered_acceleration ApplyMedianFilter
         Linear.kRVoltageCol Linear.kRPosCol Linear.kRVelCol (data !!! key) window
       = Ok (fst (m_filteredDatasets m' !!! ("Right " +:+ side)))) /\
    (forall key side, key = "fast-forward" /\ side = "Forward" \/
                      key = "fast-backward" /\ side = "Backward" ->
       let trimmed := step_trimmed TrimStepVoltageData (GetMaxTime data Linear.kTimeCol) in
       trimmed
         (ComputeAcceleration Linear.kLVoltageCol Linear.kLPosCol Linear.kLVelCol
            (data !!! key) window)
         (snd (m_rawDatasets m' !!! ("Left " +:+ side))) /\
       trimmed
         (ComputeAcceleration Linear.kRVoltageCol Linear.kRPosCol Linear.kRVelCol
            (data !!! key) window)
         (snd (m_rawDatasets m' !!! ("Right " +:+ side))) /\
       trimmed
         (filtered_acceleration ApplyMedianFilter
            Linear.kLVoltageCol Linear.kLPosCol Linear.kLVelCol (data !!! key) window)
         (snd (m_filteredDatasets m' !!! ("Left " +:+ side))) /\
       trimmed
         (filtered_acceleration ApplyMedianFilter
            Linear.kRVoltageCol Linear.kRPosCol Linear.kRVelCol (data !!! key) window)
         (snd (m_filteredDatasets m' !!! ("Right " +:+ side)))).
Proof.
  intros H. unfold PrepareLinearDrivetrainData, trim_step_min, trim_step in H.
  invert_run H. simpl.
  eexists. split; [eassumption|]. split; [done|].
  split; [apply condition_linear_slow|]. split; [apply condition_linear_fast|].
  split.
  - intros key side [[-> ->] | [-> ->]]; simpl;
      repeat split;
      repeat (rewrite lookup_total_insert_ne by (cbn; discriminate));
      rewrite lookup_total_insert_eq; simpl; assumption.
  - repeat match goal with
           | r : (list PreparedData * Settings * float)%type |- _ =>
               destruct r as [[? ?] ?]
           end.
    simpl in *.
    intros key side [[-> ->] | [-> ->]]; simpl;
      repeat split;
      repeat (rewrite lookup_total_insert_ne by (cbn; discriminate));
      rewrite lookup_total_insert_eq; simpl; unfold step_trimmed;
      eexists _, _, _, _, _; (split; [eassumption|]); eassumption.
Qed.

End PrepareDataFacts.

Lemma elevator_runs : Demo.prepare Demo.elevator = Return tt Demo.elevator_prepared.
Proof. vm_compute. reflexivity. Qed.

Lemma drivetrain_runs :
  Demo.prepare Demo.drivetrain = Return tt Demo.drivetrain_prepared.
Proof. vm_compute. reflexivity. Qed.

Lemma angular_runs : Demo.prepare Demo.angular = Return tt Demo.angular_prepared.
Proof. vm_compute. reflexivity. Qed.

Lemma CalculateCosine_other_units_witness :
  ("Meters" <> "Radians" /\ "Meters" <> "Degrees" /\ "Meters" <> "Rotations") /\
  (forall data : list PreparedData, CalculateCosine Demo.no_cos data "Meters" = data) /\
  Demo.prepare Demo.elevator = Return tt Demo.elevator_prepared /\
  cos_is_zero (fst (m_filteredDatasets Demo.elevator_prepared !!! "Combined")) /\
  cos_is_zero (snd (m_filteredDatasets Demo.elevator_prepared !!! "Combined")).
Proof.
  assert (H1 : "Meters" <> "Radians") by discriminate.
  assert (H2 : "Meters" <> "Degrees") by discriminate.
  assert (H3 : "Meters" <> "Rotations") by discriminate.
  split; [by repeat split|].
  destruct (CalculateCosine_other_units Demo.eps Demo.no_cos Demo.median_rows
              Demo.keep_step "Meters" H1 H2 H3) as (Hid & _ & Hall).
  split; [exact Hid|]. split; [exact elevator_runs|].
  refine (Hall _ Demo.elevator Demo.elevator_prepared eq_refl elevator_runs
            "Combined" _ (or_intror (or_intror eq_refl)) (or_intror eq_refl)).
  intros run settings minTime maxTime run' settings' minTime' [= <- _ _]. done.
Defined.

Lemma Combined_is_Forward_then_Backward_witness :
  Demo.prepare Demo.drivetrain = Return tt Demo.drivetrain_prepared /\
  family_combines (m_filteredDatasets Demo.drivetrain_prepared) "" /\
  family_combines (m_rawDatasets Demo.drivetrain_prepared) "Left ".
Proof.
  split; [exact drivetrain_runs|].
  destruct (Combined_is_Forward_then_Backward _ _ _ _ _ _ _ drivetrain_runs)
    as (H1 & _ & H3).
  split; [exact H1 | exact (proj1 (H3 eq_refl))].
Defined.

Lemma PrepareData_angular_leaves_raw_witness :
  AnalysisType_eqb (m_type Demo.angular) kDrivetrainAngular = true /\
  Demo.prepare Demo.angular = Return tt Demo.angular_prepared /\
  m_rawDatasets Demo.angular_prepared = ∅ /\
  dom (m_filteredDatasets Demo.angular_prepared) =
    ({["Forward"; "Backward"; "Combined"]} : gset string).
Proof.
  assert (H : AnalysisType_eqb (m_type Demo.angular) kDrivetrainAngular = true)
    by reflexivity.
  split; [exact H|]. split; [exact angular_runs|].
  destruct (PrepareData_angular_leaves_raw Demo.eps Demo.eps Demo.no_cos
              Demo.median_rows Demo.keep_step Demo.angular H) as [_ Hret].
  destruct (Hret Demo.angular_prepared angular_runs) as (_ & _ & _ & Hfresh).
  exact (Hfresh eq_refl eq_refl).
Defined.

(** C4, as stated, fails on a slow forward run whose sample at [t = 2] has
    the left wheel below the motion threshold and the right wheel above it:
    the sample passes the right side's test, and the right side on its own
    would give points at [t = 1, 2, 3, 4]; the Right Forward dataset has
    [t = 1, 3, 4]. *)
Lemma left_trim_removes_right_sample :
  Demo.prepare Demo.drivetrain = Return tt Demo.drivetrain_prepared /\
  (Demo.linear_json !!! "slow-forward") !! 2%nat = Some Demo.slow_sample /\
  FilteringUtils.quasistatic_erased Demo.eps Linear.kRVoltageCol Linear.kRVelCol
    (motionThreshold Demo.settings) (Linear.align 1 Demo.slow_sample) = false /\
  FilteringUtils.quasistatic_erased Demo.eps Linear.kLVoltageCol Linear.kLVelCol
    (motionThreshold Demo.settings) (Linear.align 1 Demo.slow_sample) = true /\
  (exists run, Demo.right_alone = Ok run /\ map timestamp run = [1; 2; 3; 4]%float) /\
  map timestamp (fst (m_rawDatasets Demo.drivetrain_prepared !!! "Right Forward"))
  = [1; 3; 4]%float /\
  map timestamp (fst (m_filteredDatasets Demo.drivetrain_prepared !!! "Right Forward"))
  = [1; 3; 4]%float.
Proof.
  split; [exact drivetrain_runs|].
  split; [reflexivity|]. split; [reflexivity|]. split; [reflexivity|].
  split; [eexists; split; vm_compute; reflexivity|].
  split; vm_compute; reflexivity.
Qed.

Lemma linear_slow_runs_are_trimmed_for_both_sides_witness :
  Demo.prepare Demo.drivetrain = Return tt Demo.drivetrain_prepared /\
  exists runs,
    load_runs Demo.linear_json = Ok runs /\
    ComputeAcceleration Linear.kRVoltageCol Linear.kRPosCol Linear.kRVelCol
      (condition_linear Demo.eps Demo.settings 1 runs !!! "slow-forward") 3
    = Ok (fst (m_rawDatasets Demo.drivetrain_prepared !!! "Right Forward")).
Proof.
  split; [exact drivetrain_runs|].
  destruct (linear_slow_runs_are_trimmed_for_both_sides Demo.eps Demo.median_rows
              Demo.keep_step Demo.drivetrain Demo.drivetrain_prepared drivetrain_runs)
    as (runs & Hruns & _ & _ & _ & Hacc & _).
  exists runs. split; [exact Hruns|].
  exact (proj1 (proj2 (Hacc "slow-forward" "Forward" (or_introl (conj eq_refl eq_refl))))).
Defined.

(** ** Calculate *)

Lemma touch_lookup_total (key : string) (datasets : gmap string Storage) :
  touch key datasets !!! key = datasets !!! key.
Proof.
  unfold touch. destruct (datasets !! key) as [x|] eqn:Hkey; [done|].
  rewrite lookup_total_insert_eq. by rewrite lookup_total_alt, Hkey.
Qed.

Section CalculateFacts.
Variable CalculateFeedforwardGains : Storage -> AnalysisType -> result FeedforwardFit.
Variable CalculatePositionFeedbackGains :
  FeedbackControllerPreset -> LQRParameters -> FeedforwardGains -> float ->
  result (float * float).
Variable CalculateVelocityFeedbackGains :
  FeedbackControllerPreset -> LQRParameters -> FeedforwardGains -> float ->
  result (float * float).
Variable kDatasets : list string.

(** X23: for every analysis type, Calculate calls the feedforward fit on the
    filtered dataset that the settings select, with the manager's type, and
    then the feedback computation of the selected loop type on the first
    three entries of the fitted vector, as Ks, Kv and Ka; no entry is chosen
    by the type.  It returns the fit, the feedback gains and the track
    width, or throws what the feedback computation throws. *)
Theorem Calculate_passes_first_three m (beta : list float) (rmse r2 : float) :
  let settings := m_settings m in
  let key := kDatasets !!! dataset settings in
  CalculateFeedforwardGains (m_filteredDatasets m !!! key) (m_type m)
  = Ok (beta, rmse, r2) ->
  let gains := {| Ks := beta !!! 0%nat; Kv := beta !!! 1%nat; Ka := beta !!! 2%nat |} in
  let factor :=
    if convertGainsToEncTicks settings
    then (gearing settings * cpr settings * m_factor m)%float else 1%float in
  let feedback :=
    match type settings with
    | kPosition =>
        CalculatePositionFeedbackGains (preset settings) (lqr settings) gains factor
    | kVelocity =>
        CalculateVelocityFeedbackGains (preset settings) (lqr settings) gains factor
    end in
  let m1 := set_m_filteredDatasets (touch key (m_filteredDatasets m)) m in
  Calculate CalculateFeedforwardGains CalculatePositionFeedbackGains
    CalculateVelocityFeedbackGains kDatasets m =
  match feedback with
  | Ok fb => Return ((beta, rmse, r2), fb, m_trackWidth m) m1
  | Throw e => Raise e m1
  end.
Proof.
  intros settings key Hfit gains factor feedback m1.
  unfold Calculate, bind, gets, modify, lift, ret. cbv beta zeta. simpl.
  fold settings. fold key. rewrite touch_lookup_total, Hfit. simpl.
  fold gains. unfold encoder_factor. fold settings. fold factor.
  change (feedback_input beta) with gains.
  subst feedback. by destruct (type settings), (_ : result (float * float)).
Qed.

End CalculateFacts.

(** On an elevator whose fit returns [1, 2, 3, 4], the feedback computation,
    here one that returns the Kv and Ka it is given, is given 2 and 3. *)
Lemma Calculate_passes_first_three_witness :
  Demo.fit (m_filteredDatasets Demo.elevator_prepared !!! "Combined") kElevator
  = Ok ([1; 2; 3; 4]%float, 0%float, 1%float) /\
  Demo.calculate Demo.elevator_prepared =
  Return (([1; 2; 3; 4]%float, 0%float, 1%float), (2%float, 3%float), None)
    (set_m_filteredDatasets
       (touch "Combined" (m_filteredDatasets Demo.elevator_prepared))
       Demo.elevator_prepared).
Proof.
  assert (H : Demo.fit (m_filteredDatasets Demo.elevator_prepared !!! "Combined")
                kElevator = Ok ([1; 2; 3; 4]%float, 0%float, 1%float)) by reflexivity.
  split; [exact H|].
  exact (Calculate_passes_first_three Demo.fit Demo.echo Demo.echo
           ["Combined"; "Forward"; "Backward"] Demo.elevator_prepared
           [1; 2; 3; 4]%float 0%float 1%float H).
Defined.

(** * Further properties *)

(** ** Concatenate and the registry *)

(** X1: Concatenate returns the destination followed by every source, in
    the order given; the length is the sum of the lengths. *)
Theorem Concatenate_concat (dest : list PreparedData) (srcs : list (list PreparedData)) :
  Concatenate dest srcs = dest ++ concat srcs /\
  length (Concatenate dest srcs) = (length dest + sum_list (length <$> srcs))%nat.
Proof.
  assert (H : Concatenate dest srcs = dest ++ concat srcs).
  { unfold Concatenate. revert dest.
    induction srcs as [|src srcs IH]; intros dest; simpl.
    - by rewrite app_nil_r.
    - rewrite IH. by rewrite <- app_assoc. }
  split; [exact H|]. rewrite H, length_app. f_equal.
  clear H. induction srcs as [|src srcs IH]; simpl; [done|].
  rewrite length_app. by rewrite IH.
Qed.

(** X2: [operator==] holds exactly of equal analysis types, [operator!=] of
    different ones, and no two entries of the registry compare equal. *)
Theorem AnalysisType_eqb_eq :
  (forall a b, AnalysisType_eqb a b = true <-> a = b) /\
  (forall a b, AnalysisType_neqb a b = true <-> a <> b) /\
  NoDup registry.
Proof.
  assert (Heq : forall a b, AnalysisType_eqb a b = true <-> a = b).
  { intros [ia ra na] [ib rb nb]. unfold AnalysisType_eqb. simpl. split.
    - intros H. apply andb_prop in H as [H H3]. apply andb_prop in H as [H1 H2].
      apply String.eqb_eq in H1. apply Nat.eqb_eq in H2, H3. by subst.
    - intros [= -> -> ->]. by rewrite String.eqb_refl, !Nat.eqb_refl. }
  split; [exact Heq|]. split.
  - intros a b. unfold AnalysisType_neqb. rewrite negb_true_iff.
    rewrite <- Heq. by destruct (AnalysisType_eqb a b).
  - unfold registry. repeat (apply NoDup_cons; split;
      [intros H; repeat (apply elem_of_cons in H as [H|H]; [discriminate|]);
       by apply elem_of_nil in H|]).
    apply NoDup_nil_2.
Qed.

(** ** More on ComputeAcceleration *)

Section ComputeAccelerationMore.
Variables Voltage Position Velocity : nat.

Lemma kept_timestamps (data : list Row) (step : nat) (indices : list nat) :
  timestamp <$> flat_map (kept_at Voltage Position Velocity data step) indices
  `sublist_of` (fun i => (data !!! i) !!! 0%nat) <$> indices.
Proof.
  induction indices as [|i indices IH]; simpl; [constructor|].
  rewrite fmap_app. unfold kept_at at 1.
  destruct (fneq _ _); simpl.
  - by apply sublist_skip.
  - by apply sublist_cons.
Qed.

Lemma kept_length (data : list Row) (step : nat) (indices : list nat) :
  (length (flat_map (kept_at Voltage Position Velocity data step) indices)
   <= length indices)%nat.
Proof.
  induction indices as [|i indices IH]; simpl; [done|].
  rewrite length_app. unfold kept_at at 1. destruct (fneq _ _); simpl; lia.
Qed.

(** X3: the points come out in the order of the rows they are made of: the
    timestamps of the output are a subsequence of the time column of the
    input; and a run of [N] rows gives at most [N - 2 * (window / 2)]
    points. *)
Theorem ComputeAcceleration_in_order (data : list Row) (window : Z)
    (prepared : list PreparedData) :
  0 <= window < 2 ^ 31 -> fits_size_t data ->
  ComputeAcceleration Voltage Position Velocity data window = Ok prepared ->
  timestamp <$> prepared `sublist_of` (fun row : Row => row !!! 0%nat) <$> data /\
  (length prepared + 2 * Z.to_nat (window / 2) <= length data)%nat.
Proof.
  intros Hw Hn Hok.
  assert (Hlt : window < Z.of_nat (length data)).
  { destruct (Z.lt_ge_cases window (Z.of_nat (length data))) as [?|Hge]; [done|].
    rewrite ComputeAcceleration_Throw in Hok by lia. discriminate. }
  rewrite ComputeAcceleration_Ok in Hok by done. injection Hok as <-.
  assert (Hs : 0 <= window / 2 <= window).
  { split; [apply Z.div_pos; lia|]. apply Z.div_le_upper_bound; lia. }
  set (s := Z.to_nat (window / 2)) in *.
  assert (Hs' : (2 * s <= length data)%nat).
  { subst s. destruct (Z.eq_dec window 0) as [->|Hne]; [simpl; lia|].
    assert (2 * (window / 2) <= window) by (apply Z.mul_div_le; lia). lia. }
  split.
  - etrans; [apply kept_timestamps|].
    replace ((fun i => (data !!! i) !!! 0%nat) <$> seq s (length data - s - s))
      with ((fun row : Row => row !!! 0%nat) <$>
            take (length data - s - s) (drop s data)).
    + apply fmap_sublist. etrans; [apply sublist_take | apply sublist_drop].
    + rewrite take_drop_seq by lia.
      induction (seq s (length data - s - s)) as [|j js IH]; [done|].
      simpl. f_equal. exact IH.
  - pose proof (kept_length data s (seq s (length data - s - s))) as Hlen.
    rewrite length_seq in Hlen. lia.
Qed.

(** X4: a negative window is rejected with the too-small error, whatever the
    run: cast to [size_t], it exceeds the size of any vector. *)
Theorem ComputeAcceleration_negative_window (data : list Row) (window : Z) :
  - 2 ^ 31 <= window < 0 -> Z.of_nat (length data) < 2 ^ 63 ->
  ComputeAcceleration Voltage Position Velocity data window = Throw too_small.
Proof.
  intros Hw Hn. unfold ComputeAcceleration, size_t_of_int.
  assert (Hmod : window mod 2 ^ 64 = window + 2 ^ 64).
  { symmetry. apply Z.mod_unique_pos with (q := -1); lia. }
  rewrite Hmod.
  by destruct (Z.leb_spec (Z.of_nat (length data)) (window + 2 ^ 64)) as [_|?]; [|lia].
Qed.

(** The difference of a double with itself is [+0] or NaN, and the quotient
    of two such differences is NaN. *)
Lemma self_quotient_nan (x y : float) : ((x - x) / (y - y))%float = nan.
Proof.
  assert (Hsub : forall z, Prim2SF (z - z)%float = S754_nan \/
                           Prim2SF (z - z)%float = S754_zero false).
  { intros z. rewrite sub_spec. unfold SF64sub, SFsub.
    destruct (Prim2SF z) as [[]|[]| |s m e]; auto.
    right. rewrite Z.sub_diag. reflexivity. }
  apply Prim2SF_inj. rewrite div_spec. unfold SF64div.
  destruct (Hsub x) as [Hx | Hx], (Hsub y) as [Hy | Hy]; rewrite Hx, Hy; reflexivity.
Qed.

(** X5: a window of 0 or 1 is not rejected: the stencil has no width, every
    row of a run longer than the window gives a point, and the acceleration
    of each point is NaN. *)
Theorem ComputeAcceleration_degenerate_window (data : list Row) (window : Z) :
  0 <= window <= 1 -> fits_size_t data -> window < Z.of_nat (length data) ->
  ComputeAcceleration Voltage Position Velocity data window =
  Ok (degenerate_point Voltage Position Velocity <$> data).
Proof.
  intros Hw Hn Hlt. rewrite ComputeAcceleration_Ok by (done || lia).
  replace (window / 2) with 0 by (symmetry; apply Z.div_small; lia).
  simpl. rewrite !Nat.sub_0_r. f_equal.
  assert (Hkept : forall i, kept_at Voltage Position Velocity data 0 i =
                            [degenerate_point Voltage Position Velocity (data !!! i)]).
  { intros i. unfold kept_at, prepared_at, accel_at.
    rewrite Nat.add_0_r, Nat.sub_0_r, self_quotient_nan. reflexivity. }
  rewrite (flat_map_ext _ _ Hkept).
  transitivity (degenerate_point Voltage Position Velocity <$>
                take (length data) (drop 0 data)).
  - rewrite take_drop_seq by lia. change (Z.to_nat 0) with 0%nat.
    induction (seq 0 (length data)) as [|j js IH]; [done|].
    simpl. f_equal. exact IH.
  - by rewrite drop_0, firstn_all.
Qed.
End ComputeAccelerationMore.

(** ** More on CalculateCosine and GetMaxTime *)

(** X6: whatever the unit, CalculateCosine keeps the number and the order of
    the points and every member but [cos]; for Radians, Degrees and
    Rotations the [cos] is the cosine of the position, of
    [position * pi / 180] and of [position * 2 * pi]. *)
Theorem CalculateCosine_only_cos std_cos (data : list PreparedData) (units : string) :
  length (CalculateCosine std_cos data units) = length data /\
  set_cos 0 <$> CalculateCosine std_cos data units = set_cos 0 <$> data /\
  cos <$> CalculateCosine std_cos data "Radians" =
    (fun pt => std_cos (position pt)) <$> data /\
  cos <$> CalculateCosine std_cos data "Degrees" =
    (fun pt => std_cos (position pt * pi / 180)%float) <$> data /\
  cos <$> CalculateCosine std_cos data "Rotations" =
    (fun pt => std_cos (position pt * 2 * pi)%float) <$> data.
Proof.
  unfold CalculateCosine. split; [apply length_map|]. split.
  { induction data as [|pt data IH]; simpl; [done|]. f_equal; [|exact IH].
    by destruct (String.eqb units "Radians"), (String.eqb units "Degrees"),
       (String.eqb units "Rotations"). }
  split; [|split]; simpl;
    (induction data as [|pt data IH]; simpl; [done|f_equal; exact IH]).
Qed.

Lemma ltb_irrefl (a : float) : (a <? a)%float = false.
Proof.
  rewrite FloatAxioms.ltb_spec. unfold SFltb.
  pose proof (SFcompare_antisym (Prim2SF a) (Prim2SF a)) as H.
  by destruct (SFcompare (Prim2SF a) (Prim2SF a)) as [[]|].
Qed.

Lemma ltb_asym (a b : float) : (a <? b)%float = true -> (b <? a)%float = false.
Proof.
  rewrite !FloatAxioms.ltb_spec. unfold SFltb.
  rewrite (SFcompare_antisym (Prim2SF a) (Prim2SF b)).
  by destruct (SFcompare (Prim2SF a) (Prim2SF b)) as [[]|].
Qed.

Lemma std_max_bounds (a b : float) :
  (std_max a b = a \/ std_max a b = b) /\
  (std_max a b <? a)%float = false /\ (std_max a b <? b)%float = false.
Proof.
  unfold std_max. destruct (a <? b)%float eqn:Hab.
  - split; [by right|]. split; [by apply ltb_asym | apply ltb_irrefl].
  - split; [by left|]. split; [apply ltb_irrefl | exact Hab].
Qed.

(** X7: GetMaxTime is the duration (last time less first time) of one of the
    two fast runs, and it is less than neither duration. *)
Theorem GetMaxTime_bounds (data : gmap string (list Row)) (timeCol : nat) :
  let duration (key : string) : float :=
    (back (data !!! key) !!! timeCol - ((data !!! key) !!! 0%nat) !!! timeCol)%float in
  (GetMaxTime data timeCol = duration "fast-forward" \/
   GetMaxTime data timeCol = duration "fast-backward") /\
  (GetMaxTime data timeCol <? duration "fast-forward")%float = false /\
  (GetMaxTime data timeCol <? duration "fast-backward")%float = false.
Proof. intros duration. unfold GetMaxTime. apply std_max_bounds. Qed.

Lemma back_map (f : Row -> Row) (l : list Row) :
  f [] = [] -> back (map f l) = f (back l).
Proof.
  intros Hf. unfold back. induction l as [|x l IH]; simpl; [by rewrite Hf|].
  destruct l as [|y l]; [done|]. exact IH.
Qed.

Lemma first_map (f : Row -> Row) (l : list Row) :
  f [] = [] -> map f l !!! 0%nat = f (l !!! 0%nat).
Proof. intros Hf. by destruct l. Qed.

Lemma General_align_time factor (pt : Row) :
  General.align factor pt !!! General.kTimeCol = pt !!! General.kTimeCol.
Proof. unfold General.align. by rewrite !list_lookup_total_insert_ne. Qed.

Lemma Angular_align_time factor (pt : Row) :
  Angular.align factor pt !!! Angular.kTimeCol = pt !!! Angular.kTimeCol.
Proof. unfold Angular.align. by rewrite !list_lookup_total_insert_ne. Qed.

Lemma Linear_align_time factor (pt : Row) :
  Linear.align factor pt !!! Linear.kTimeCol = pt !!! Linear.kTimeCol.
Proof. unfold Linear.align. by rewrite !list_lookup_total_insert_ne. Qed.

Lemma GetMaxTime_ext (data data' : gmap string (list Row)) (f : Row -> Row) :
  f [] = [] -> (forall pt, f pt !!! 0%nat = pt !!! 0%nat) ->
  data' !!! "fast-forward" = map f (data !!! "fast-forward") ->
  data' !!! "fast-backward" = map f (data !!! "fast-backward") ->
  GetMaxTime data' 0 = GetMaxTime data 0.
Proof.
  intros Hnil Hf Hff Hfb. unfold GetMaxTime.
  by rewrite Hff, Hfb, !back_map, !first_map, !Hf.
Qed.

Section Conditioning.
Variable voltage_eps : float.

Lemma condition_general_fast settings factor runs key :
  key = "fast-forward" \/ key = "fast-backward" ->
  condition_general voltage_eps settings factor runs !!! key =
  map (General.align factor) (runs !!! key).
Proof.
  unfold condition_general, trim_run.
  intros [-> | ->]; rewrite !lookup_total_insert_ne by done;
    by rewrite lookup_total_fmap_rows.
Qed.

Lemma condition_angular_fast settings factor runs key :
  key = "fast-forward" \/ key = "fast-backward" ->
  condition_angular voltage_eps settings factor runs !!! key =
  map (Angular.align factor) (runs !!! key).
Proof.
  unfold condition_angular, trim_run.
  intros [-> | ->]; rewrite !lookup_total_insert_ne by done;
    by rewrite lookup_total_fmap_rows.
Qed.

(** X8: the maximum step time that the Prepare functions store is that of
    the fast runs as they are in the JSON: the sign alignment, the scaling
    and the quasistatic trims do not change it. *)
Theorem GetMaxTime_of_conditioned settings factor (runs : gmap string (list Row)) :
  GetMaxTime (condition_general voltage_eps settings factor runs) General.kTimeCol
  = GetMaxTime runs 0 /\
  GetMaxTime (condition_angular voltage_eps settings factor runs) Angular.kTimeCol
  = GetMaxTime runs 0 /\
  GetMaxTime (condition_linear voltage_eps settings factor runs) Linear.kTimeCol
  = GetMaxTime runs 0.
Proof.
  split; [|split].
  - apply (GetMaxTime_ext _ _ (General.align factor));
      [done | apply General_align_time | apply condition_general_fast; auto ..].
  - apply (GetMaxTime_ext _ _ (Angular.align factor));
      [done | apply Angular_align_time | apply condition_angular_fast; auto ..].
  - apply (GetMaxTime_ext _ _ (Linear.align factor));
      [done | apply Linear_align_time | apply condition_linear_fast; auto ..].
Qed.
End Conditioning.

(** ** Exceptions of the Prepare functions *)

Lemma bind_gets {A B} (f : AnalysisManager -> A) (k : A -> M B) m :
  bind (gets f) k m = k (f m) m.
Proof. reflexivity. Qed.

Lemma bind_lift_Ok {A B} (a : A) (k : A -> M B) m : bind (lift (Ok a)) k m = k a m.
Proof. reflexivity. Qed.

Lemma bind_lift_Throw {A B} (e : exn) (k : A -> M B) m :
  bind (lift (Throw e)) k m = Raise e m.
Proof. reflexivity. Qed.

Lemma raises_keep_bind {A B C} (f : AnalysisManager -> C) (c : M A) (k : A -> M B) :
  keeps f c -> (forall a, raises_keep f (k a)) -> raises_keep f (bind c k).
Proof.
  intros Hc Hk m e m' H. unfold bind in H. specialize (Hc m).
  destruct (c m) as [a m1|e1 m1]; simpl in Hc.
  - rewrite <- Hc. by eapply Hk.
  - by injection H as <- <-.
Qed.

Lemma raises_keep_lift {A C} (f : AnalysisManager -> C) (r : result A) :
  raises_keep f (lift r).
Proof. intros m e m' H. unfold lift in H. destruct r; [done|]. by injection H as _ <-. Qed.

Lemma never_raises_bind {A B} (c : M A) (k : A -> M B) :
  never_raises c -> (forall a, never_raises (k a)) -> never_raises (bind c k).
Proof.
  intros Hc Hk m e m' H. unfold bind in H.
  destruct (c m) as [a m1|e1 m1] eqn:Hcm; [by eapply Hk|by eapply Hc].
Qed.

Lemma never_raises_gets {A} (g : AnalysisManager -> A) : never_raises (gets g).
Proof. by intros m e m'. Qed.

Lemma never_raises_modify g : never_raises (modify g).
Proof. by intros m e m'. Qed.

Lemma never_raises_ret {A} (x : A) : never_raises (ret x).
Proof. by intros m e m'. Qed.

Lemma raises_keep_never {A C} (f : AnalysisManager -> C) (c : M A) :
  never_raises c -> raises_keep f c.
Proof. intros Hc m e m' H. by apply Hc in H. Qed.

Ltac never_steps :=
  repeat (cbv beta zeta;
          first
            [ apply never_raises_gets | apply never_raises_modify
            | apply never_raises_ret
            | apply never_raises_bind; [|intros ?] ]).

Ltac raises_steps :=
  repeat (cbv beta zeta;
          first
            [ apply raises_keep_lift
            | apply raises_keep_bind; [solve [keeps_steps] | intros ?]
            | apply raises_keep_never; solve [never_steps] ]).

Lemma load_runs_cases (json : gmap string (list Row)) :
  ((forall key, key ∈ kJsonDataKeys -> is_Some (json !! key)) ->
   exists data,
     load_runs json = Ok data /\
     forall key, data !! key =
                 if bool_decide (key ∈ kJsonDataKeys) then json !! key else None) /\
  (forall key, key ∈ kJsonDataKeys -> json !! key = None ->
   exists missing before after,
     load_runs json = Throw (out_of_range missing) /\
     kJsonDataKeys = before ++ missing :: after /\
     json !! missing = None /\
     forall k, k ∈ before -> is_Some (json !! k)).
Proof.
  unfold load_runs, kJsonDataKeys. simpl. split.
  - intros Hall.
    destruct (Hall "slow-forward") as [sf Hsf]; [set_solver|].
    destruct (Hall "slow-backward") as [sb Hsb]; [set_solver|].
    destruct (Hall "fast-forward") as [ff Hff]; [set_solver|].
    destruct (Hall "fast-backward") as [fb Hfb]; [set_solver|].
    rewrite Hsf, Hsb, Hff, Hfb. simpl. eexists. split; [reflexivity|].
    intros key. case_bool_decide as Hkey.
    + rewrite !elem_of_cons, elem_of_nil in Hkey.
      destruct Hkey as [-> | [-> | [-> | [-> | []]]]];
        repeat (rewrite lookup_insert_ne by done); by rewrite lookup_insert_eq.
    + rewrite !elem_of_cons, elem_of_nil in Hkey.
      rewrite !lookup_insert_ne by (intros <-; tauto). apply lookup_empty.
  - intros key Hkey Hnone.
    destruct (json !! "slow-forward") as [sf|] eqn:Hsf; simpl.
    2: { exists "slow-forward", [], ["slow-backward"; "fast-forward"; "fast-backward"].
         repeat split; try done. intros k Hk. by apply elem_of_nil in Hk. }
    destruct (json !! "slow-backward") as [sb|] eqn:Hsb; simpl.
    2: { exists "slow-backward", ["slow-forward"], ["fast-forward"; "fast-backward"].
         repeat split; try done. intros k Hk.
         rewrite !elem_of_cons, elem_of_nil in Hk.
         destruct Hk as [-> | []]; by eexists. }
    destruct (json !! "fast-forward") as [ff|] eqn:Hff; simpl.
    2: { exists "fast-forward", ["slow-forward"; "slow-backward"], ["fast-backward"].
         repeat split; try done. intros k Hk.
         rewrite !elem_of_cons, elem_of_nil in Hk.
         destruct Hk as [-> | [-> | []]]; by eexists. }
    destruct (json !! "fast-backward") as [fb|] eqn:Hfb; simpl.
    2: { exists "fast-backward", ["slow-forward"; "slow-backward"; "fast-forward"], [].
         repeat split; try done. intros k Hk.
         rewrite !elem_of_cons, elem_of_nil in Hk.
         destruct Hk as [-> | [-> | [-> | []]]]; by eexists. }
    rewrite !elem_of_cons, elem_of_nil in Hkey.
    destruct Hkey as [-> | [-> | [-> | [-> | []]]]]; congruence.
Qed.

(** X9: the four runs are read from the JSON when all four keys are there,
    and nothing else is read; when a key is missing, the first missing one,
    in the order slow-forward, slow-backward, fast-forward, fast-backward,
    is reported as out of range. *)
Theorem load_runs_spec (json : gmap string (list Row)) :
  ((forall key, key ∈ kJsonDataKeys -> is_Some (json !! key)) ->
   exists data,
     load_runs json = Ok data /\
     forall key, data !! key =
                 if bool_decide (key ∈ kJsonDataKeys) then json !! key else None) /\
  (forall key, key ∈ kJsonDataKeys -> json !! key = None ->
   exists missing before after,
     load_runs json = Throw (out_of_range missing) /\
     kJsonDataKeys = before ++ missing :: after /\
     json !! missing = None /\
     forall k, k ∈ before -> is_Some (json !! k)).
Proof. exact (load_runs_cases json). Qed.

Lemma ComputeAcceleration_total Voltage Position Velocity (data : list Row) (window : Z) :
  ComputeAcceleration Voltage Position Velocity data window = Throw too_small \/
  exists prepared, ComputeAcceleration Voltage Position Velocity data window = Ok prepared.
Proof. unfold ComputeAcceleration. destruct (_ <=? _); eauto. Qed.

(** One call of ComputeAcceleration at the head of a computation: either it
    throws, or the computation goes on with its result. *)
Ltac acceleration_step E :=
  lazymatch goal with
  | |- bind (lift (ComputeAcceleration ?V ?P ?Vel ?d ?w)) _ _ = _ =>
      destruct (ComputeAcceleration_total V P Vel d w) as [E | [? E]];
      rewrite E; [reflexivity | rewrite bind_lift_Ok; cbv beta]
  end.

Section PrepareDataMore.
Variable voltage_eps : float.
Variable heading_eps : float.
Variable std_cos : float -> float.
Variable ApplyMedianFilter : nat -> list Row -> Z -> result (list Row).
Variable TrimStepVoltageData :
  list PreparedData -> Settings -> float -> float ->
  result (list PreparedData * Settings * float).

(** X10: when a run is missing from the JSON, PrepareData throws the
    out-of-range error of the first missing key and leaves the manager
    exactly as it was, whatever the type. *)
Theorem PrepareData_missing_run m (key : string) :
  key ∈ kJsonDataKeys -> m_json m !! key = None ->
  exists missing,
    missing ∈ kJsonDataKeys /\ m_json m !! missing = None /\
    PrepareData voltage_eps heading_eps std_cos ApplyMedianFilter TrimStepVoltageData m
    = Raise (out_of_range missing) m.
Proof.
  intros Hkey Hnone.
  destruct (proj2 (load_runs_cases (m_json m)) key Hkey Hnone)
    as (missing & before & after & Hload & Hkeys & Hmissing & _).
  exists missing. split; [rewrite Hkeys, elem_of_app, elem_of_cons; auto|].
  split; [exact Hmissing|].
  unfold PrepareData.
  destruct (AnalysisType_eqb (m_type m) kDrivetrain);
    [|destruct (AnalysisType_eqb (m_type m) kDrivetrainAngular)].
  - unfold PrepareLinearDrivetrainData. by rewrite bind_gets, Hload.
  - unfold PrepareAngularDrivetrainData. by rewrite bind_gets, Hload.
  - unfold PrepareGeneralData. by rewrite bind_gets, Hload.
Qed.

(** X11: when the four runs are there and one of them, after the sign
    alignment, the scaling and the quasistatic trims, has at most
    [windowSize] rows, PrepareData throws the too-small error and leaves the
    manager exactly as it was. *)
Theorem PrepareData_too_small m (runs : gmap string (list Row)) (key : string) :
  0 <= windowSize (m_settings m) < 2 ^ 31 ->
  load_runs (m_json m) = Ok runs ->
  key ∈ kJsonDataKeys ->
  Z.of_nat (length (conditioned voltage_eps (m_type m) (m_settings m) (m_factor m) runs
                      !!! key)) <= windowSize (m_settings m) ->
  PrepareData voltage_eps heading_eps std_cos ApplyMedianFilter TrimStepVoltageData m
  = Raise too_small m.
Proof.
  intros Hw Hload Hkey Hshort. unfold PrepareData, conditioned in *.
  unfold kJsonDataKeys in Hkey. rewrite !elem_of_cons, elem_of_nil in Hkey.
  destruct (AnalysisType_eqb (m_type m) kDrivetrain);
    [|destruct (AnalysisType_eqb (m_type m) kDrivetrainAngular)].
  - unfold PrepareLinearDrivetrainData.
    rewrite bind_gets, Hload, bind_lift_Ok, !bind_gets. cbv beta zeta.
    acceleration_step E1. acceleration_step E2.
    acceleration_step E3. acceleration_step E4.
    destruct Hkey as [-> | [-> | [-> | [-> | []]]]];
      [rewrite ComputeAcceleration_Throw in E1 by done
      |rewrite ComputeAcceleration_Throw in E2 by done
      |rewrite ComputeAcceleration_Throw in E3 by done
      |rewrite ComputeAcceleration_Throw in E4 by done]; discriminate.
  - unfold PrepareAngularDrivetrainData.
    rewrite bind_gets, Hload, bind_lift_Ok, !bind_gets. cbv beta zeta.
    acceleration_step E1. acceleration_step E2.
    acceleration_step E3. acceleration_step E4.
    destruct Hkey as [-> | [-> | [-> | [-> | []]]]];
      [rewrite ComputeAcceleration_Throw in E1 by done
      |rewrite ComputeAcceleration_Throw in E2 by done
      |rewrite ComputeAcceleration_Throw in E3 by done
      |rewrite ComputeAcceleration_Throw in E4 by done]; discriminate.
  - unfold PrepareGeneralData.
    rewrite bind_gets, Hload, bind_lift_Ok, !bind_gets. cbv beta zeta.
    acceleration_step E1. acceleration_step E2.
    acceleration_step E3. acceleration_step E4.
    destruct Hkey as [-> | [-> | [-> | [-> | []]]]];
      [rewrite ComputeAcceleration_Throw in E1 by done
      |rewrite ComputeAcceleration_Throw in E2 by done
      |rewrite ComputeAcceleration_Throw in E3 by done
      |rewrite ComputeAcceleration_Throw in E4 by done]; discriminate.
Qed.

Lemma Prepare_raises_keep_outputs :
  raises_keep outputs
    (PrepareGeneralData voltage_eps std_cos ApplyMedianFilter TrimStepVoltageData) /\
  raises_keep outputs
    (PrepareAngularDrivetrainData voltage_eps heading_eps TrimStepVoltageData) /\
  raises_keep outputs
    (PrepareLinearDrivetrainData voltage_eps ApplyMedianFilter TrimStepVoltageData).
Proof.
  split; [|split].
  - unfold PrepareGeneralData, trim_step_min, trim_step. raises_steps.
  - unfold PrepareAngularDrivetrainData, trim_step_min, trim_step. raises_steps.
  - unfold PrepareLinearDrivetrainData, trim_step_min, trim_step. raises_steps.
Qed.

(** X12: whenever PrepareData throws, the raw datasets, the filtered
    datasets, the start times and the track width are as they were before
    the call: nothing of a failed preparation is stored. *)
Theorem PrepareData_throw_keeps_datasets m e m' :
  PrepareData voltage_eps heading_eps std_cos ApplyMedianFilter TrimStepVoltageData m
  = Raise e m' ->
  m_rawDatasets m' = m_rawDatasets m /\
  m_filteredDatasets m' = m_filteredDatasets m /\
  m_startTimes m' = m_startTimes m /\
  m_trackWidth m' = m_trackWidth m.
Proof.
  intros H. destruct Prepare_raises_keep_outputs as (Hg & Ha & Hl).
  assert (Hout : outputs m' = outputs m).
  { unfold PrepareData in H.
    destruct (AnalysisType_eqb (m_type m) kDrivetrain);
      [|destruct (AnalysisType_eqb (m_type m) kDrivetrainAngular)];
      [by eapply Hl | by eapply Ha | by eapply Hg]. }
  unfold outputs in Hout. by injection Hout as -> -> -> ->.
Qed.

Lemma Prepare_keeps_inputs :
  keeps inputs
    (PrepareGeneralData voltage_eps std_cos ApplyMedianFilter TrimStepVoltageData) /\
  keeps inputs
    (PrepareAngularDrivetrainData voltage_eps heading_eps TrimStepVoltageData) /\
  keeps inputs
    (PrepareLinearDrivetrainData voltage_eps ApplyMedianFilter TrimStepVoltageData).
Proof.
  split; [|split].
  - unfold PrepareGeneralData, trim_step_min, trim_step. keeps_steps.
  - unfold PrepareAngularDrivetrainData, trim_step_min, trim_step. keeps_steps.
  - unfold PrepareLinearDrivetrainData, trim_step_min, trim_step. keeps_steps.
Qed.

Lemma Prepare_keeps_trackWidth :
  keeps m_trackWidth
    (PrepareGeneralData voltage_eps std_cos ApplyMedianFilter TrimStepVoltageData) /\
  keeps m_trackWidth
    (PrepareLinearDrivetrainData voltage_eps ApplyMedianFilter TrimStepVoltageData).
Proof.
  split.
  - unfold PrepareGeneralData, trim_step_min, trim_step. keeps_steps.
  - unfold PrepareLinearDrivetrainData, trim_step_min, trim_step. keeps_steps.
Qed.

(** X13: PrepareData never changes the JSON, the type, the unit or the
    factor of the manager, whether it returns or throws; and for every type
    but the angular drivetrain it never changes the track width, so a track
    width stored earlier stays. *)
Theorem PrepareData_keeps_inputs m :
  let m' :=
    final (PrepareData voltage_eps heading_eps std_cos ApplyMedianFilter
             TrimStepVoltageData m) in
  m_json m' = m_json m /\
  m_type m' = m_type m /\
  m_unit m' = m_unit m /\
  m_factor m' = m_factor m /\
  (AnalysisType_eqb (m_type m) kDrivetrain = true \/
   AnalysisType_eqb (m_type m) kDrivetrainAngular = false ->
   m_trackWidth m' = m_trackWidth m).
Proof.
  intros m'. subst m'.
  destruct Prepare_keeps_inputs as (Hg & Ha & Hl).
  destruct Prepare_keeps_trackWidth as (Htg & Htl).
  unfold PrepareData.
  destruct (AnalysisType_eqb (m_type m) kDrivetrain) eqn:Hlin;
    [|destruct (AnalysisType_eqb (m_type m) kDrivetrainAngular) eqn:Hang].
  - specialize (Hl m). unfold inputs in Hl. injection Hl as -> -> -> ->.
    repeat split. intros _. apply Htl.
  - specialize (Ha m). unfold inputs in Ha. injection Ha as -> -> -> ->.
    repeat split. by intros [?|?].
  - specialize (Hg m). unfold inputs in Hg. injection Hg as -> -> -> ->.
    repeat split. intros _. apply Htg.
Qed.

(** X14: when PrepareData returns and none of the filtered Forward
    quasistatic, Backward quasistatic, Forward dynamic and Backward dynamic
    sequences it has stored is empty, the four start times are the
    timestamps of the first points of these sequences, in this order.
    (Where one of them is empty the program reads the first element of an
    empty vector, and nothing is stated.) *)
Theorem PrepareData_start_times m m' (sf0 sb0 ff0 fb0 : PreparedData) :
  PrepareData voltage_eps heading_eps std_cos ApplyMedianFilter TrimStepVoltageData m
  = Return tt m' ->
  let forward := m_filteredDatasets m' !!! "Forward" in
  let backward := m_filteredDatasets m' !!! "Backward" in
  fst forward !! 0%nat = Some sf0 -> fst backward !! 0%nat = Some sb0 ->
  snd forward !! 0%nat = Some ff0 -> snd backward !! 0%nat = Some fb0 ->
  m_startTimes m' = [timestamp sf0; timestamp sb0; timestamp ff0; timestamp fb0].
Proof.
  intros H forward backward Hsf Hsb Hff Hfb.
  apply list_lookup_total_correct in Hsf, Hsb, Hff, Hfb.
  subst sf0 sb0 ff0 fb0. subst forward backward. revert H.
  unfold PrepareData. intros H.
  destruct (AnalysisType_eqb (m_type m) kDrivetrain);
    [|destruct (AnalysisType_eqb (m_type m) kDrivetrainAngular)].
  - unfold PrepareLinearDrivetrainData, trim_step_min, trim_step in H.
    invert_run H. simpl.
    repeat (rewrite lookup_total_insert_ne by (cbn; discriminate)).
    rewrite lookup_total_insert_eq.
    repeat (rewrite lookup_total_insert_ne by (cbn; discriminate)).
    rewrite lookup_total_insert_eq. reflexivity.
  - unfold PrepareAngularDrivetrainData, trim_step_min, trim_step in H.
    invert_run H. simpl.
    repeat (rewrite lookup_total_insert_ne by (cbn; discriminate)).
    rewrite lookup_total_insert_eq.
    repeat (rewrite lookup_total_insert_ne by (cbn; discriminate)).
    rewrite lookup_total_insert_eq. reflexivity.
  - unfold PrepareGeneralData, trim_step_min, trim_step in H.
    invert_run H. simpl.
    repeat (rewrite lookup_total_insert_ne by (cbn; discriminate)).
    rewrite lookup_total_insert_eq.
    repeat (rewrite lookup_total_insert_ne by (cbn; discriminate)).
    rewrite lookup_total_insert_eq. reflexivity.
Qed.

Ltac total_lookups :=
  repeat first
    [ rewrite lookup_total_insert_eq
    | rewrite lookup_total_insert_ne by (cbn; discriminate) ].

Lemma app_swap_middle {A} (a b c d : list A) :
  (a ++ b) ++ (c ++ d) ≡ₚ (a ++ c) ++ (b ++ d).
Proof.
  rewrite <- !app_assoc. apply Permutation_app_head.
  rewrite !app_assoc. apply Permutation_app_tail, Permutation_app_comm.
Qed.

(** X15: for the linear drivetrain, in the raw and in the filtered
    datasets, the Forward dataset is the Left Forward one followed by the
    Right Forward one, the Backward dataset likewise, and the Combined
    dataset holds the points of Left Combined and Right Combined, in another
    order (left forward, right forward, left backward, right backward). *)
Theorem linear_merges_left_then_right m m' (datasets : gmap string Storage) :
  PrepareLinearDrivetrainData voltage_eps ApplyMedianFilter TrimStepVoltageData m
  = Return tt m' ->
  datasets = m_rawDatasets m' \/ datasets = m_filteredDatasets m' ->
  (forall direction, direction = "Forward" \/ direction = "Backward" ->
     fst (datasets !!! direction) =
       fst (datasets !!! ("Left " +:+ direction)) ++
       fst (datasets !!! ("Right " +:+ direction)) /\
     snd (datasets !!! direction) =
       snd (datasets !!! ("Left " +:+ direction)) ++
       snd (datasets !!! ("Right " +:+ direction))) /\
  fst (datasets !!! "Combined") ≡ₚ
    fst (datasets !!! "Left Combined") ++ fst (datasets !!! "Right Combined") /\
  snd (datasets !!! "Combined") ≡ₚ
    snd (datasets !!! "Left Combined") ++ snd (datasets !!! "Right Combined").
Proof.
  intros H Hd. unfold PrepareLinearDrivetrainData, trim_step_min, trim_step in H.
  invert_run H. simpl in Hd.
  destruct Hd as [-> | ->]; (split; [|split]);
    try (intros direction [-> | ->]; simpl);
    total_lookups; simpl; try done; apply app_swap_middle.
Qed.

Lemma PrepareGeneralData_writes m m' :
  PrepareGeneralData voltage_eps std_cos ApplyMedianFilter TrimStepVoltageData m
  = Return tt m' ->
  exists f b c f' b' c',
    m_rawDatasets m' =
      <["Combined" := c]> (<["Backward" := b]> (<["Forward" := f]> (m_rawDatasets m))) /\
    m_filteredDatasets m' =
      <["Combined" := c']> (<["Backward" := b']> (<["Forward" := f']>
        (m_filteredDatasets m))).
Proof.
  intros H. unfold PrepareGeneralData, trim_step_min, trim_step in H.
  invert_run H. simpl. by eexists _, _, _, _, _, _.
Qed.

Lemma PrepareLinearDrivetrainData_writes m m' :
  PrepareLinearDrivetrainData voltage_eps ApplyMedianFilter TrimStepVoltageData m
  = Return tt m' ->
  exists f b c lf lb lc rf rb rc f' b' c' lf' lb' lc' rf' rb' rc',
    m_rawDatasets m' =
      <["Right Combined" := rc]> (<["Right Backward" := rb]> (<["Right Forward" := rf]>
      (<["Left Combined" := lc]> (<["Left Backward" := lb]> (<["Left Forward" := lf]>
      (<["Combined" := c]> (<["Backward" := b]> (<["Forward" := f]>
        (m_rawDatasets m))))))))) /\
    m_filteredDatasets m' =
      <["Right Combined" := rc']> (<["Right Backward" := rb']> (<["Right Forward" := rf']>
      (<["Left Combined" := lc']> (<["Left Backward" := lb']> (<["Left Forward" := lf']>
      (<["Combined" := c']> (<["Backward" := b']> (<["Forward" := f']>
        (m_filteredDatasets m))))))))).
Proof.
  intros H. unfold PrepareLinearDrivetrainData, trim_step_min, trim_step in H.
  invert_run H. simpl.
  by eexists _, _, _, _, _, _, _, _, _, _, _, _, _, _, _, _, _, _.
Qed.

(** X16: when it returns, PrepareData of a general mechanism has written
    the keys Forward, Backward and Combined of the raw and of the filtered
    datasets, and PrepareData of the linear drivetrain these and the six
    Left and Right keys; every other key of the two maps is as it was. *)
Theorem PrepareData_written_keys m m' :
  AnalysisType_eqb (m_type m) kDrivetrain = true \/
  AnalysisType_eqb (m_type m) kDrivetrainAngular = false ->
  PrepareData voltage_eps heading_eps std_cos ApplyMedianFilter TrimStepVoltageData m
  = Return tt m' ->
  let written :=
    if AnalysisType_eqb (m_type m) kDrivetrain then linear_keys else general_keys in
  (dom (m_rawDatasets m') = list_to_set written ∪ dom (m_rawDatasets m) /\
   dom (m_filteredDatasets m') = list_to_set written ∪ dom (m_filteredDatasets m)) /\
  forall key, key ∉ written ->
    m_rawDatasets m' !! key = m_rawDatasets m !! key /\
    m_filteredDatasets m' !! key = m_filteredDatasets m !! key.
Proof.
  intros Htype H. unfold PrepareData in H.
  destruct (AnalysisType_eqb (m_type m) kDrivetrain) eqn:Hlin.
  - apply PrepareLinearDrivetrainData_writes in H
      as (f & b & c & lf & lb & lc & rf & rb & rc & f' & b' & c' & lf' & lb' & lc'
          & rf' & rb' & rc' & -> & ->).
    cbv beta iota zeta. split.
    + split; rewrite !dom_insert_L; apply set_eq; intros k;
        rewrite !elem_of_union, elem_of_list_to_set, !elem_of_singleton;
        unfold linear_keys; rewrite !elem_of_cons, elem_of_nil; tauto.
    + intros key Hkey. unfold linear_keys in Hkey.
      rewrite !elem_of_cons, elem_of_nil in Hkey.
      split; rewrite !lookup_insert_ne by (intros <-; tauto); done.
  - destruct Htype as [?|Hang]; [done|]. rewrite Hang in H.
    apply PrepareGeneralData_writes in H as (f & b & c & f' & b' & c' & -> & ->).
    cbv beta iota zeta. split.
    + split; rewrite !dom_insert_L; apply set_eq; intros k;
        rewrite !elem_of_union, elem_of_list_to_set, !elem_of_singleton;
        unfold general_keys; rewrite !elem_of_cons, elem_of_nil; tauto.
    + intros key Hkey. unfold general_keys in Hkey.
      rewrite !elem_of_cons, elem_of_nil in Hkey.
      split; rewrite !lookup_insert_ne by (intros <-; tauto); done.
Qed.

Lemma condition_angular_slow settings factor runs :
  condition_angular voltage_eps settings factor runs !!! "slow-forward" =
  List.filter
    (fun pt =>
       negb (FilteringUtils.quasistatic_erased voltage_eps Angular.kVoltageCol
               Angular.kAngularRateCol (motionThreshold settings) pt))
    (map (Angular.align factor) (runs !!! "slow-forward")).
Proof.
  unfold condition_angular, trim_run, FilteringUtils.TrimQuasistaticData.
  rewrite lookup_total_insert_ne by done. rewrite lookup_total_insert_eq.
  by rewrite lookup_total_fmap_rows.
Qed.

(** X17: when PrepareAngularDrivetrainData returns, the track width it has
    stored is CalculateTrackWidth of the differences, between the last and
    the first row, of the left position, the right position and the angle of
    the slow forward run as it is after the sign alignment, the scaling of
    the positions and the quasistatic trim (not of the run as logged). *)
Theorem angular_track_width m m' :
  PrepareAngularDrivetrainData voltage_eps heading_eps TrimStepVoltageData m
  = Return tt m' ->
  exists runs tw,
    load_runs (m_json m) = Ok runs /\
    let twd :=
      List.filter
        (fun pt =>
           negb (FilteringUtils.quasistatic_erased voltage_eps Angular.kVoltageCol
                   Angular.kAngularRateCol (motionThreshold (m_settings m)) pt))
        (map (Angular.align (m_factor m)) (runs !!! "slow-forward")) in
    let delta (column : nat) : float :=
      (back twd !!! column - (twd !!! 0%nat) !!! column)%float in
    TrackWidthAnalysis.CalculateTrackWidth heading_eps
      (delta Angular.kLPosCol) (delta Angular.kRPosCol) (delta Angular.kAngleCol)
    = Ok tw /\
    m_trackWidth m' = Some tw.
Proof.
  intros H. unfold PrepareAngularDrivetrainData, trim_step_min, trim_step in H.
  invert_run H. simpl.
  match goal with
  | Hload : load_runs (m_json m) = Ok ?runs,
    Htw : TrackWidthAnalysis.CalculateTrackWidth _ _ _ _ = Ok ?tw |- _ =>
      exists runs, tw; split; [exact Hload|];
      rewrite condition_angular_slow in Htw; split; [exact Htw|reflexivity]
  end.
Qed.

(** X19: OverrideUnits stores the unit and the factor it is given before it
    prepares the data again, so they are the manager's even when the
    preparation throws, in which case the datasets are those of before;
    the JSON and the type stay. *)
Theorem OverrideUnits_sets_units m (units : string) (unitsPerRotation : float) :
  let o := OverrideUnits voltage_eps heading_eps std_cos ApplyMedianFilter
             TrimStepVoltageData units unitsPerRotation m in
  m_unit (final o) = units /\ m_factor (final o) = unitsPerRotation /\
  m_json (final o) = m_json m /\ m_type (final o) = m_type m /\
  forall e m', o = Raise e m' ->
    m_rawDatasets m' = m_rawDatasets m /\
    m_filteredDatasets m' = m_filteredDatasets m /\
    m_startTimes m' = m_startTimes m /\
    m_trackWidth m' = m_trackWidth m.
Proof.
  intros o.
  set (m2 := set_m_factor unitsPerRotation (set_m_unit units m)).
  assert (Ho : o = PrepareData voltage_eps heading_eps std_cos ApplyMedianFilter TrimStepVoltageData
                     m2) by reflexivity.
  destruct Prepare_keeps_inputs as (Hg & Ha & Hl).
  destruct Prepare_raises_keep_outputs as (Hrg & Hra & Hrl).
  assert (Hin : inputs (final o) = inputs m2).
  { rewrite Ho. unfold PrepareData.
    destruct (AnalysisType_eqb (m_type m2) kDrivetrain);
      [|destruct (AnalysisType_eqb (m_type m2) kDrivetrainAngular)];
      [apply Hl | apply Ha | apply Hg]. }
  unfold inputs in Hin. injection Hin as -> -> -> ->.
  do 4 (split; [reflexivity|]).
  intros e m' Hraise.
  assert (Hout : outputs m' = outputs m2).
  { rewrite Ho in Hraise. unfold PrepareData in Hraise.
    destruct (AnalysisType_eqb (m_type m2) kDrivetrain);
      [|destruct (AnalysisType_eqb (m_type m2) kDrivetrainAngular)];
      [by eapply Hrl | by eapply Hra | by eapply Hrg]. }
  unfold outputs in Hout. by injection Hout as -> -> -> ->.
Qed.

End PrepareDataMore.

(** ** Calculate: what it does to the manager *)

Section CalculateMore.
Variable CalculateFeedforwardGains : Storage -> AnalysisType -> result FeedforwardFit.
Variable CalculatePositionFeedbackGains :
  FeedbackControllerPreset -> LQRParameters -> FeedforwardGains -> float ->
  result (float * float).
Variable CalculateVelocityFeedbackGains :
  FeedbackControllerPreset -> LQRParameters -> FeedforwardGains -> float ->
  result (float * float).
Variable kDatasets : list string.

(** X18: whether Calculate returns or throws, the one thing it does to the
    manager is the [operator[]] on the filtered datasets: the selected key
    is in the map afterwards, with an empty dataset if it was not there, the
    entries of before are as they were, and every other member is unchanged.
    An exception of the feedforward fit leaves Calculate as it is, before
    any feedback computation. *)
Theorem Calculate_only_touches m :
  let key := kDatasets !!! dataset (m_settings m) in
  let o := Calculate CalculateFeedforwardGains CalculatePositionFeedbackGains
             CalculateVelocityFeedbackGains kDatasets m in
  final o = set_m_filteredDatasets (touch key (m_filteredDatasets m)) m /\
  dom (m_filteredDatasets (final o)) = dom (m_filteredDatasets m) ∪ {[key]} /\
  (forall k v, m_filteredDatasets m !! k = Some v ->
               m_filteredDatasets (final o) !! k = Some v) /\
  (m_filteredDatasets m !! key = None ->
   m_filteredDatasets (final o) !! key = Some ([], [])) /\
  (forall e,
     CalculateFeedforwardGains (m_filteredDatasets m !!! key) (m_type m) = Throw e ->
     o = Raise e (final o)).
Proof.
  intros key o.
  assert (Hfinal : final o = set_m_filteredDatasets (touch key (m_filteredDatasets m)) m).
  { subst o. unfold Calculate, bind, gets, modify, lift, ret. cbv beta zeta. simpl.
    fold key. rewrite touch_lookup_total.
    destruct (CalculateFeedforwardGains _ _) as [ff|e]; [|done].
    by destruct (type (m_settings m)), (_ : result (float * float)). }
  assert (Hthrow : forall e,
     CalculateFeedforwardGains (m_filteredDatasets m !!! key) (m_type m) = Throw e ->
     o = Raise e (final o)).
  { intros e He. rewrite Hfinal. subst o.
    unfold Calculate, bind, gets, modify, lift, ret.
    cbv beta zeta. simpl. fold key. by rewrite touch_lookup_total, He. }
  split; [exact Hfinal|]. split; [|split; [|split; [|exact Hthrow]]].
  all: rewrite Hfinal; simpl; unfold touch.
  - destruct (m_filteredDatasets m !! key) as [x|] eqn:Hkey.
    + apply set_eq. intros k. rewrite elem_of_union, elem_of_singleton.
      split; [tauto|]. intros [Hk| ->]; [done|]. apply elem_of_dom. by exists x.
    + by rewrite dom_insert_L, (comm_L (∪)).
  - intros k v Hk. destruct (m_filteredDatasets m !! key) as [x|] eqn:Hkey; [done|].
    rewrite lookup_insert_ne; [done|]. intros <-. congruence.
  - intros ->. by rewrite lookup_insert_eq.
Qed.

End CalculateMore.

(** ** SysIdGeneralMechanismLogger *)

Section LoggerFacts.
Import SysIdGeneralMechanismLogger.
Variable kDataVectorSize : nat.
Variable Env : Type.
Variable UpdateData : Env -> Logger -> Logger.
Variable SysIdLogger_Reset : Logger -> Logger.

Abbreviation Log' := (Log kDataVectorSize Env UpdateData).
Abbreviation Logs' := (Logs kDataVectorSize Env UpdateData).

Lemma Log_length env p v l :
  (forall env l, m_data (UpdateData env l) = m_data l) ->
  length (m_data (Log' env p v l)) =
  (if (length (m_data l) <? kDataVectorSize)%nat
   then length (m_data l) + 4 else length (m_data l))%nat.
Proof.
  intros Hdata. unfold Log. cbv zeta. rewrite Hdata.
  destruct (_ <? _)%nat; simpl; [|by rewrite Hdata].
  rewrite length_app. simpl. lia.
Qed.

(** X20: if UpdateData leaves the data vector alone, every call of Log
    appends four values or none, and after [n] calls the vector has grown
    by four values for each of the first [ceil ((kDataVectorSize - size) / 4)]
    calls and by nothing afterwards; the vector therefore ends with fewer
    than [kDataVectorSize + 4] values, which may be more than
    [kDataVectorSize]. *)
Theorem Logs_length (calls : list (Env * float * float)) l :
  (forall env l, m_data (UpdateData env l) = m_data l) ->
  let size := length (m_data l) in
  length (m_data (Logs' calls l)) =
  (size + 4 * (length calls `min` ((kDataVectorSize - size + 3) / 4)))%nat /\
  ((size < kDataVectorSize + 4)%nat ->
   (length (m_data (Logs' calls l)) < kDataVectorSize + 4)%nat).
Proof.
  intros Hdata size. subst size.
  assert (Hlen : length (m_data (Logs' calls l)) =
    (length (m_data l) +
     4 * (length calls `min` ((kDataVectorSize - length (m_data l) + 3) / 4)))%nat).
  { revert l. induction calls as [|[[env p] v] calls IH]; intros l.
    - simpl. lia.
    - unfold Logs in *. simpl fold_left. rewrite IH. simpl fst. simpl snd.
      rewrite (Log_length env p v l Hdata).
      destruct (Nat.ltb_spec (length (m_data l)) kDataVectorSize) as [Hlt|Hge].
      + pose proof (Nat.div_mod_eq (kDataVectorSize - length (m_data l) + 3) 4) as Hq.
        pose proof (Nat.mod_upper_bound (kDataVectorSize - length (m_data l) + 3) 4) as Hr.
        pose proof (Nat.div_mod_eq (kDataVectorSize - (length (m_data l) + 4) + 3) 4) as Hq'.
        pose proof (Nat.mod_upper_bound (kDataVectorSize - (length (m_data l) + 4) + 3) 4)
          as Hr'.
        simpl length. lia.
      + replace (kDataVectorSize - length (m_data l) + 3)%nat with 3%nat by lia.
        change (3 / 4)%nat with 0%nat. simpl length. lia. }
  split; [exact Hlen|]. intros Hsize. rewrite Hlen.
  pose proof (Nat.div_mod_eq (kDataVectorSize - length (m_data l) + 3) 4) as Hq.
  pose proof (Nat.mod_upper_bound (kDataVectorSize - length (m_data l) + 3) 4) as Hr.
  lia.
Qed.

Lemma Log_primary env p v l :
  m_primaryMotorVoltage (Log' env p v l) = m_motorVoltage (UpdateData env l).
Proof. unfold Log. cbv zeta. by destruct (_ <? _)%nat. Qed.

Lemma Log_data env p v l :
  (forall env l, m_data (UpdateData env l) = m_data l) ->
  (forall env l, m_primaryMotorVoltage (UpdateData env l) = m_primaryMotorVoltage l) ->
  m_data (Log' env p v l) =
  if (length (m_data l) <? kDataVectorSize)%nat
  then m_data l ++ [m_timestamp (UpdateData env l); m_primaryMotorVoltage l; p; v]
  else m_data l.
Proof.
  intros Hdata Hprimary. unfold Log. cbv zeta. rewrite Hdata.
  destruct (_ <? _)%nat; simpl; by rewrite ?Hdata, ?Hprimary.
Qed.

(** X21: the voltage that Log writes next to a measurement is not the one
    commanded in that period: with an UpdateData that leaves the data and
    the primary voltage alone, the row of a call holds the time stamp that
    its UpdateData has read and the motor voltage that the UpdateData of
    the call before has read, which is also what GetMotorVoltage returns
    between the two calls. *)
Theorem Log_voltage_of_previous_call env1 p1 v1 env2 p2 v2 l :
  (forall env l, m_data (UpdateData env l) = m_data l) ->
  (forall env l, m_primaryMotorVoltage (UpdateData env l) = m_primaryMotorVoltage l) ->
  let l1 := Log' env1 p1 v1 l in
  (length (m_data l1) < kDataVectorSize)%nat ->
  GetMotorVoltage l1 = m_motorVoltage (UpdateData env1 l) /\
  m_data (Log' env2 p2 v2 l1) =
  m_data l1 ++
  [m_timestamp (UpdateData env2 l1); m_motorVoltage (UpdateData env1 l); p2; v2].
Proof.
  intros Hdata Hprimary l1 Hroom.
  split; [apply Log_primary|].
  rewrite Log_data by assumption.
  apply Nat.ltb_lt in Hroom. rewrite Hroom.
  subst l1. by rewrite Log_primary.
Qed.

(** X22: Reset puts the primary voltage to zero after the reset of the base
    class, so GetMotorVoltage returns 0 and the first row that Log writes
    after a Reset holds a voltage of 0, whatever is commanded in that
    period. *)
Theorem Log_after_Reset env p v l :
  (forall env l, m_data (UpdateData env l) = m_data l) ->
  (forall env l, m_primaryMotorVoltage (UpdateData env l) = m_primaryMotorVoltage l) ->
  (length (m_data (SysIdLogger_Reset l)) < kDataVectorSize)%nat ->
  GetMotorVoltage (Reset SysIdLogger_Reset l) = 0%float /\
  m_data (Log' env p v (Reset SysIdLogger_Reset l)) =
  m_data (SysIdLogger_Reset l) ++
  [m_timestamp (UpdateData env (Reset SysIdLogger_Reset l)); 0%float; p; v].
Proof.
  intros Hdata Hprimary Hroom. split; [reflexivity|].
  rewrite Log_data by assumption. unfold Reset at 1 2 4. simpl.
  apply Nat.ltb_lt in Hroom. by rewrite Hroom.
Qed.

End LoggerFacts.

(** ** The further properties on concrete cases *)

Lemma ComputeAcceleration_in_order_witness :
  0 <= 3 < 2 ^ 31 /\ fits_size_t Demo.ramp /\
  exists prepared,
    ComputeAcceleration 1 2 3 Demo.ramp 3 = Ok prepared /\
    timestamp <$> prepared `sublist_of` (fun row : Row => row !!! 0%nat) <$> Demo.ramp /\
    (length prepared + 2 * Z.to_nat (3 / 2) <= length Demo.ramp)%nat.
Proof.
  assert (H1 : 0 <= 3 < 2 ^ 31) by lia.
  assert (H2 : fits_size_t Demo.ramp) by (unfold fits_size_t; simpl; lia).
  split; [exact H1|]. split; [exact H2|].
  eexists. split; [vm_compute; reflexivity|].
  refine (ComputeAcceleration_in_order 1 2 3 Demo.ramp 3 _ H1 H2 _).
  vm_compute. reflexivity.
Defined.

Lemma ComputeAcceleration_negative_window_witness :
  - 2 ^ 31 <= -1 < 0 /\ Z.of_nat (length Demo.ramp) < 2 ^ 63 /\
  ComputeAcceleration 1 2 3 Demo.ramp (-1) = Throw too_small.
Proof.
  assert (H1 : - 2 ^ 31 <= -1 < 0) by lia.
  assert (H2 : Z.of_nat (length Demo.ramp) < 2 ^ 63) by (simpl; lia).
  split; [exact H1|]. split; [exact H2|].
  exact (ComputeAcceleration_negative_window 1 2 3 Demo.ramp (-1) H1 H2).
Defined.

Lemma ComputeAcceleration_degenerate_window_witness :
  0 <= 1 <= 1 /\ fits_size_t Demo.ramp /\ 1 < Z.of_nat (length Demo.ramp) /\
  ComputeAcceleration 1 2 3 Demo.ramp 1 = Ok (degenerate_point 1 2 3 <$> Demo.ramp).
Proof.
  assert (H1 : 0 <= 1 <= 1) by lia.
  assert (H2 : fits_size_t Demo.ramp) by (unfold fits_size_t; simpl; lia).
  assert (H3 : 1 < Z.of_nat (length Demo.ramp)) by (simpl; lia).
  split; [exact H1|]. split; [exact H2|]. split; [exact H3|].
  exact (ComputeAcceleration_degenerate_window 1 2 3 Demo.ramp 1 H1 H2 H3).
Defined.

Lemma PrepareData_missing_run_witness :
  "fast-backward" ∈ kJsonDataKeys /\
  m_json Cases.incomplete !! "fast-backward" = None /\
  exists missing,
    missing ∈ kJsonDataKeys /\ m_json Cases.incomplete !! missing = None /\
    Demo.prepare Cases.incomplete = Raise (out_of_range missing) Cases.incomplete.
Proof.
  assert (H1 : "fast-backward" ∈ kJsonDataKeys)
    by (unfold kJsonDataKeys; rewrite !elem_of_cons; auto).
  assert (H2 : m_json Cases.incomplete !! "fast-backward" = None) by reflexivity.
  split; [exact H1|]. split; [exact H2|].
  exact (PrepareData_missing_run Demo.eps Demo.eps Demo.no_cos Demo.median_rows
           Demo.keep_step Cases.incomplete "fast-backward" H1 H2).
Defined.

Lemma PrepareData_too_small_witness :
  0 <= windowSize (m_settings Cases.short) < 2 ^ 31 /\
  load_runs (m_json Cases.short) = Ok Cases.short_runs /\
  "slow-forward" ∈ kJsonDataKeys /\
  Z.of_nat (length (conditioned Demo.eps (m_type Cases.short) (m_settings Cases.short)
                      (m_factor Cases.short) Cases.short_runs !!! "slow-forward"))
  <= windowSize (m_settings Cases.short) /\
  Demo.prepare Cases.short = Raise too_small Cases.short.
Proof.
  assert (H1 : 0 <= windowSize (m_settings Cases.short) < 2 ^ 31) by (simpl; lia).
  assert (H2 : load_runs (m_json Cases.short) = Ok Cases.short_runs)
    by (vm_compute; reflexivity).
  assert (H3 : "slow-forward" ∈ kJsonDataKeys)
    by (unfold kJsonDataKeys; rewrite !elem_of_cons; auto).
  assert (H4 : Z.of_nat (length (conditioned Demo.eps (m_type Cases.short)
                                   (m_settings Cases.short) (m_factor Cases.short)
                                   Cases.short_runs !!! "slow-forward"))
               <= windowSize (m_settings Cases.short))
    by (vm_compute; discriminate).
  split; [exact H1|]. split; [exact H2|]. split; [exact H3|]. split; [exact H4|].
  exact (PrepareData_too_small Demo.eps Demo.eps Demo.no_cos Demo.median_rows
           Demo.keep_step Cases.short Cases.short_runs "slow-forward" H1 H2 H3 H4).
Defined.

Lemma PrepareData_throw_keeps_datasets_witness :
  Demo.prepare Cases.short = Raise too_small Cases.short /\
  m_rawDatasets Cases.short = ∅ /\ m_filteredDatasets Cases.short = ∅.
Proof.
  assert (H : Demo.prepare Cases.short = Raise too_small Cases.short)
    by (vm_compute; reflexivity).
  split; [exact H|].
  destruct (PrepareData_throw_keeps_datasets Demo.eps Demo.eps Demo.no_cos
              Demo.median_rows Demo.keep_step Cases.short too_small Cases.short H)
    as (Hraw & Hfiltered & _).
  split; [exact Hraw | exact Hfiltered].
Defined.

(** On the elevator no sequence is empty, and the four start at [t = 1]:
    the window of three takes one sample from each end of a run. *)
Lemma PrepareData_start_times_witness :
  let forward := m_filteredDatasets Demo.elevator_prepared !!! "Forward" in
  let backward := m_filteredDatasets Demo.elevator_prepared !!! "Backward" in
  Demo.prepare Demo.elevator = Return tt Demo.elevator_prepared /\
  exists sf0 sb0 ff0 fb0,
    (fst forward !! 0%nat = Some sf0 /\ fst backward !! 0%nat = Some sb0 /\
     snd forward !! 0%nat = Some ff0 /\ snd backward !! 0%nat = Some fb0) /\
    m_startTimes Demo.elevator_prepared =
    [timestamp sf0; timestamp sb0; timestamp ff0; timestamp fb0] /\
    [timestamp sf0; timestamp sb0; timestamp ff0; timestamp fb0] = [1; 1; 1; 1]%float.
Proof.
  intros forward backward.
  split; [exact elevator_runs|].
  assert (H1 : fst forward !! 0%nat = Some (fst forward !!! 0%nat))
    by (vm_compute; reflexivity).
  assert (H2 : fst backward !! 0%nat = Some (fst backward !!! 0%nat))
    by (vm_compute; reflexivity).
  assert (H3 : snd forward !! 0%nat = Some (snd forward !!! 0%nat))
    by (vm_compute; reflexivity).
  assert (H4 : snd backward !! 0%nat = Some (snd backward !!! 0%nat))
    by (vm_compute; reflexivity).
  exists (fst forward !!! 0%nat), (fst backward !!! 0%nat),
         (snd forward !!! 0%nat), (snd backward !!! 0%nat).
  split; [by repeat split|].
  split; [|vm_compute; reflexivity].
  exact (PrepareData_start_times Demo.eps Demo.eps Demo.no_cos Demo.median_rows
           Demo.keep_step Demo.elevator Demo.elevator_prepared _ _ _ _
           elevator_runs H1 H2 H3 H4).
Defined.

Lemma linear_merges_left_then_right_witness :
  PrepareLinearDrivetrainData Demo.eps Demo.median_rows Demo.keep_step Demo.drivetrain
  = Return tt Demo.drivetrain_prepared /\
  fst (m_filteredDatasets Demo.drivetrain_prepared !!! "Combined") ≡ₚ
    fst (m_filteredDatasets Demo.drivetrain_prepared !!! "Left Combined") ++
    fst (m_filteredDatasets Demo.drivetrain_prepared !!! "Right Combined").
Proof.
  assert (H : PrepareLinearDrivetrainData Demo.eps Demo.median_rows Demo.keep_step
                Demo.drivetrain = Return tt Demo.drivetrain_prepared)
    by (vm_compute; reflexivity).
  split; [exact H|].
  exact (proj1 (proj2 (linear_merges_left_then_right Demo.eps Demo.median_rows
                         Demo.keep_step Demo.drivetrain Demo.drivetrain_prepared
                         (m_filteredDatasets Demo.drivetrain_prepared) H
                         (or_intror eq_refl)))).
Defined.

Lemma PrepareData_written_keys_witness :
  (AnalysisType_eqb (m_type Demo.elevator) kDrivetrain = true \/
   AnalysisType_eqb (m_type Demo.elevator) kDrivetrainAngular = false) /\
  Demo.prepare Demo.elevator = Return tt Demo.elevator_prepared /\
  dom (m_rawDatasets Demo.elevator_prepared) =
    list_to_set general_keys ∪ dom (m_rawDatasets Demo.elevator).
Proof.
  assert (H : AnalysisType_eqb (m_type Demo.elevator) kDrivetrain = true \/
              AnalysisType_eqb (m_type Demo.elevator) kDrivetrainAngular = false)
    by (right; reflexivity).
  split; [exact H|]. split; [exact elevator_runs|].
  exact (proj1 (proj1 (PrepareData_written_keys Demo.eps Demo.eps Demo.no_cos
                         Demo.median_rows Demo.keep_step Demo.elevator
                         Demo.elevator_prepared H elevator_runs))).
Defined.

Lemma angular_track_width_witness :
  PrepareAngularDrivetrainData Demo.eps Demo.eps Demo.keep_step Demo.angular
  = Return tt Demo.angular_prepared /\
  exists tw, m_trackWidth Demo.angular_prepared = Some tw.
Proof.
  assert (H : PrepareAngularDrivetrainData Demo.eps Demo.eps Demo.keep_step Demo.angular
              = Return tt Demo.angular_prepared) by (vm_compute; reflexivity).
  split; [exact H|].
  destruct (angular_track_width Demo.eps Demo.eps Demo.keep_step Demo.angular
              Demo.angular_prepared H) as (runs & tw & _ & _ & Htw).
  exists tw. exact Htw.
Defined.

Lemma Logs_length_witness :
  (forall env l, SysIdGeneralMechanismLogger.m_data (Cases.UpdateData env l) =
                 SysIdGeneralMechanismLogger.m_data l) /\
  length (SysIdGeneralMechanismLogger.m_data
            (Cases.Logs Cases.calls
               Cases.logger)) = 8%nat.
Proof.
  assert (H : forall env l, SysIdGeneralMechanismLogger.m_data (Cases.UpdateData env l) =
                            SysIdGeneralMechanismLogger.m_data l)
    by (intros; reflexivity).
  split; [exact H|].
  exact (proj1 (Logs_length Cases.kDataVectorSize Cases.Env Cases.UpdateData
                  Cases.calls
                  Cases.logger H)).
Defined.

Lemma Log_voltage_of_previous_call_witness :
  (forall env l, SysIdGeneralMechanismLogger.m_data (Cases.UpdateData env l) =
                 SysIdGeneralMechanismLogger.m_data l) /\
  (forall env l,
     SysIdGeneralMechanismLogger.m_primaryMotorVoltage (Cases.UpdateData env l) =
     SysIdGeneralMechanismLogger.m_primaryMotorVoltage l) /\
  (length (SysIdGeneralMechanismLogger.m_data Cases.once)
   < Cases.kDataVectorSize)%nat /\
  SysIdGeneralMechanismLogger.m_data
    (Cases.Log (1, 2)%float 1%float 1%float Cases.once)
  = [0; 0; 0; 0; 1; 1; 1; 1]%float.
Proof.
  assert (H1 : forall env l, SysIdGeneralMechanismLogger.m_data (Cases.UpdateData env l) =
                             SysIdGeneralMechanismLogger.m_data l)
    by (intros; reflexivity).
  assert (H2 : forall env l,
             SysIdGeneralMechanismLogger.m_primaryMotorVoltage (Cases.UpdateData env l) =
             SysIdGeneralMechanismLogger.m_primaryMotorVoltage l)
    by (intros; reflexivity).
  assert (H3 : (length (SysIdGeneralMechanismLogger.m_data
                          Cases.once)
                < Cases.kDataVectorSize)%nat) by (vm_compute; lia).
  split; [exact H1|]. split; [exact H2|]. split; [exact H3|].
  exact (proj2 (Log_voltage_of_previous_call Cases.kDataVectorSize Cases.Env
                  Cases.UpdateData (0, 1)%float 0%float 0%float (1, 2)%float 1%float
                  1%float Cases.logger H1 H2 H3)).
Defined.

Lemma Log_after_Reset_witness :
  (forall env l, SysIdGeneralMechanismLogger.m_data (Cases.UpdateData env l) =
                 SysIdGeneralMechanismLogger.m_data l) /\
  (forall env l,
     SysIdGeneralMechanismLogger.m_primaryMotorVoltage (Cases.UpdateData env l) =
     SysIdGeneralMechanismLogger.m_primaryMotorVoltage l) /\
  SysIdGeneralMechanismLogger.m_data
    (Cases.Log (2, 3)%float 5%float 6%float
       (SysIdGeneralMechanismLogger.Reset Cases.SysIdLogger_Reset Cases.once))
  = [2; 0; 5; 6]%float.
Proof.
  assert (H1 : forall env l, SysIdGeneralMechanismLogger.m_data (Cases.UpdateData env l) =
                             SysIdGeneralMechanismLogger.m_data l)
    by (intros; reflexivity).
  assert (H2 : forall env l,
             SysIdGeneralMechanismLogger.m_primaryMotorVoltage (Cases.UpdateData env l) =
             SysIdGeneralMechanismLogger.m_primaryMotorVoltage l)
    by (intros; reflexivity).
  split; [exact H1|]. split; [exact H2|].
  refine (proj2 (Log_after_Reset Cases.kDataVectorSize Cases.Env Cases.UpdateData
                   Cases.SysIdLogger_Reset (2, 3)%float 5%float 6%float
                   Cases.once H1 H2 _)).
  vm_compute. lia.
Defined.
